(** * WireGuard key rotation of the IVPN daemon: a shallow embedding

    The development follows the Go packages it verifies:

    - [time]        : the part of Go's [time] package the daemon uses;
    - [strings]     : [strings.Contains] and [strings.TrimSpace];
    - [preferences] : [service/preferences/preferences.go];
    - [wgkeys]      : [service/wgkeys/manager.go], one call at a time, as
                      state passing over the manager, its receiver and what
                      the outside answers;
    - [rotation]    : the [generateKeys] of the same file, one statement at a
                      time, run by several goroutines that share the manager;
    - [service]     : the receiver of the daemon, over its [Preferences];
    - [example]     : a daemon to run the definitions on;
    - [platform]    : the package [platform] that sets the daemon's paths;
    - [installation]: an installation to run [platform.Init] on.

    Go's [error] is an optional message, [nil] being [None].  Logging has no
    effect on the values computed and is left out.  The definitions come
    first, their properties after them. *)

From Stdlib Require Import ZArith String Ascii List Bool Lia.
Import ListNotations.

Local Open Scope Z_scope.

Definition error := option string.

(** [len(s) == 0] on a Go string. *)
Definition isEmpty (s : string) : bool :=
  match s with
  | EmptyString => true
  | String _ _ => false
  end.

(** ** Package [time] *)

Module time.

(** An instant is a number of nanoseconds counted from Go's zero [Time]
    (January 1 of year 1, UTC), on one time line.  A [Duration] is Go's
    [int64] count of nanoseconds.  Go keeps an instant as 64-bit seconds plus
    nanoseconds: sums of an instant that [encoding/json] or [time.Now] can
    produce and of a [Duration] stay far inside that range, so [Add] is exact. *)
Definition Time := Z.
Definition Duration := Z.

Definition minDuration : Duration := - 2 ^ 63.
Definition maxDuration : Duration := 2 ^ 63 - 1.

Definition Nanosecond : Duration := 1.
Definition Microsecond : Duration := 1000 * Nanosecond.
Definition Millisecond : Duration := 1000 * Microsecond.
Definition Second : Duration := 1000 * Millisecond.
Definition Minute : Duration := 60 * Second.
Definition Hour : Duration := 60 * Minute.

(** [time.Time{}] *)
Definition zero : Time := 0.

Definition Add (t : Time) (d : Duration) : Time := t + d.

(** [t.Sub(u)]: the difference, or the nearest [Duration] when the
    difference does not fit. *)
Definition Sub (t u : Time) : Duration :=
  if t - u <? minDuration then minDuration
  else if maxDuration <? t - u then maxDuration
  else t - u.

Definition After (t u : Time) : bool := u <? t.
Definition Before (t u : Time) : bool := t <? u.

End time.

(** ** Package [strings] *)

Module strings.

Fixpoint HasPrefix (s prefix : string) : bool :=
  match prefix, s with
  | EmptyString, _ => true
  | String c p, String d r => Ascii.eqb c d && HasPrefix r p
  | String _ _, EmptyString => false
  end.

Fixpoint Contains (s substr : string) : bool :=
  HasPrefix s substr ||
  match s with
  | EmptyString => false
  | String _ r => Contains r substr
  end.

(** The white space of ASCII. *)
Definition isSpace (c : ascii) : bool :=
  let n := nat_of_ascii c in
  ((9 <=? n) && (n <=? 13))%nat || (n =? 32)%nat.

Fixpoint TrimLeft (s : string) : string :=
  match s with
  | EmptyString => EmptyString
  | String c r => if isSpace c then TrimLeft r else s
  end.

Fixpoint TrimRight (s : string) : string :=
  match s with
  | EmptyString => EmptyString
  | String c r =>
      match TrimRight r with
      | EmptyString => if isSpace c then EmptyString else String c EmptyString
      | r' => String c r'
      end
  end.

(** [strings.TrimSpace] on a string of ASCII. *)
Definition TrimSpace (s : string) : string := TrimRight (TrimLeft s).

End strings.

(** ** Package [preferences] *)

Module preferences.

(** [DefaultWGKeysInterval]: seven days. *)
Definition DefaultWGKeysInterval : time.Duration := time.Hour * 24 * 7.

(** [SessionStatus] is declared in a file of the package that is not part of
    the sources at hand; its fields are the ones [preferences.go] reads and
    writes. *)
Module SessionStatus.

Record t : Type := mk {
  AccountID : string;
  Session : string;
  OpenVPNUser : string;
  OpenVPNPass : string;
  WGPublicKey : string;
  WGPrivateKey : string;
  WGLocalIP : string;
  WGKeyGenerated : time.Time;
  WGKeysRegenInerval : time.Duration
}.

(** The zero value of the struct. *)
Definition empty : t :=
  mk EmptyString EmptyString EmptyString EmptyString
     EmptyString EmptyString EmptyString time.zero 0.

Definition setWGKeyGenerated (g : time.Time) (s : t) : t :=
  mk (AccountID s) (Session s) (OpenVPNUser s) (OpenVPNPass s)
     (WGPublicKey s) (WGPrivateKey s) (WGLocalIP s) g (WGKeysRegenInerval s).

Definition setWGKeysRegenInerval (i : time.Duration) (s : t) : t :=
  mk (AccountID s) (Session s) (OpenVPNUser s) (OpenVPNPass s)
     (WGPublicKey s) (WGPrivateKey s) (WGLocalIP s) (WGKeyGenerated s) i.

(** Modelled from the spec: the method [updateWgCredentials] of
    [SessionStatus], which [setSession] and [UpdateWgCredentials] call, is not
    part of the sources at hand.  The spec has the credential store persist
    the new keypair, the address and the generated-now timestamp; [now] is
    the clock reading the method takes. *)
Definition updateWgCredentials (now : time.Time)
    (wgPublicKey wgPrivateKey wgLocalIP : string) (s : t) : t :=
  mk (AccountID s) (Session s) (OpenVPNUser s) (OpenVPNPass s)
     wgPublicKey wgPrivateKey wgLocalIP now (WGKeysRegenInerval s).

End SessionStatus.

Record Preferences : Type := mkPreferences {
  IsLogging : bool;
  IsFwPersistant : bool;
  IsFwAllowLAN : bool;
  IsFwAllowLANMulticast : bool;
  IsStopOnClientDisconnect : bool;
  IsObfsproxy : bool;
  Session : SessionStatus.t
}.

Definition setSessionStatus (s : SessionStatus.t) (p : Preferences) : Preferences :=
  mkPreferences (IsLogging p) (IsFwPersistant p) (IsFwAllowLAN p)
    (IsFwAllowLANMulticast p) (IsStopOnClientDisconnect p) (IsObfsproxy p) s.

(** The settings of the releases up to v2.10.9: every flag is a string. *)
Record PreferencesOld : Type := mkPreferencesOld {
  old_IsLogging : string;
  old_IsFwPersistant : string;
  old_IsFwAllowLAN : string;
  old_IsFwAllowLANMulticast : string;
  old_IsStopOnClientDisconnect : string;
  old_IsObfsproxy : string
}.

Definition emptyOld : PreferencesOld :=
  mkPreferencesOld EmptyString EmptyString EmptyString
                   EmptyString EmptyString EmptyString.

(** [encoding/json], as far as the package uses it.  [Unmarshal] fills the
    value it is given and may leave it partly filled when it fails. *)
Class Codec : Type := {
  json_Marshal : Preferences -> string * error;
  json_Unmarshal : string -> Preferences -> Preferences * error;
  json_UnmarshalOld : string -> PreferencesOld -> PreferencesOld * error
}.

(** The files [ioutil.ReadFile] and [ioutil.WriteFile] see: a content per
    path, and the paths that refuse a write. *)
Record Disk : Type := mkDisk {
  content : string -> option string;
  refuses : string -> bool
}.

Definition ioutil_ReadFile (path : string) (d : Disk) : string * error :=
  match content d path with
  | Some data => (data, None)
  | None => (EmptyString, Some ("open " ++ path ++ ": no such file or directory")%string)
  end.

Definition ioutil_WriteFile (path data : string) (d : Disk) : Disk * error :=
  if refuses d path
  then (d, Some ("open " ++ path ++ ": permission denied")%string)
  else (mkDisk (fun q => if String.eqb q path then Some data else content d q)
               (refuses d), None).

Definition dquote : ascii := ascii_of_nat 34.

(** The field name, between double quotes, that only the old settings have. *)
Definition oldMarker : string :=
  String dquote ("firewall_is_persistent" ++ String dquote EmptyString)%string.

Section WithEnvironment.

(** [platform.SettingsFile()]: the path is set by the platform's start-up
    code. *)
Variable SettingsFile : string.
Context {codec : Codec}.

(** [SavePreferences] *)
Definition SavePreferences (p : Preferences) (d : Disk) : Disk * error :=
  match json_Marshal p with
  | (_, Some err) =>
      (d, Some ("failed to save preferences file (json marshal error): " ++ err)%string)
  | (data, None) => ioutil_WriteFile SettingsFile data d
  end.

(** The two repairs [LoadPreferences] makes to what it decoded. *)
Definition resetKeyGenerated (p : Preferences) : Preferences :=
  let s := Session p in
  if isEmpty (SessionStatus.WGPublicKey s)
     || isEmpty (SessionStatus.WGPrivateKey s)
     || isEmpty (SessionStatus.WGLocalIP s)
  then setSessionStatus (SessionStatus.setWGKeyGenerated time.zero s) p
  else p.

(** [LoadPreferences]: the error, the receiver and the files afterwards. *)
Definition LoadPreferences (p : Preferences) (d : Disk)
  : error * Preferences * Disk :=
  match ioutil_ReadFile SettingsFile d with
  | (_, Some err) =>
      (Some ("failed to read preferences file: " ++ err)%string, p, d)
  | (data, None) =>
      if strings.Contains data oldMarker then
        match json_UnmarshalOld data emptyOld with
        | (_, Some err) => (Some err, p, d)
        | (oldStylePrefs, None) =>
            let one := String.eqb "1" in
            (None,
             mkPreferences
               (one (old_IsLogging oldStylePrefs))
               (one (old_IsFwPersistant oldStylePrefs))
               (one (old_IsFwAllowLAN oldStylePrefs))
               (one (old_IsFwAllowLANMulticast oldStylePrefs))
               (one (old_IsStopOnClientDisconnect oldStylePrefs))
               (one (old_IsObfsproxy oldStylePrefs))
               (Session p),
             d)
        end
      else
        match json_Unmarshal data p with
        | (p, Some err) => (Some err, p, d)
        | (p, None) =>
            let p := resetKeyGenerated p in
            if SessionStatus.WGKeysRegenInerval (Session p) <=? 0 then
              let p := setSessionStatus
                         (SessionStatus.setWGKeysRegenInerval
                            DefaultWGKeysInterval (Session p)) p in
              let (d, _) := SavePreferences p d in
              (None, p, d)
            else (None, p, d)
        end
  end.

(** The blob [LoadPreferences] reads is in the current format: the file is
    there and lacks the old field name. *)
Definition currentFormat (d : Disk) : Prop :=
  exists data, content d SettingsFile = Some data
               /\ strings.Contains data oldMarker = false.

(** [updateWgCredentials] of [SessionStatus] as a parameter: the clock
    reading it takes, then its three arguments. *)
Variable updateWgCredentials :
  time.Time -> string -> string -> string -> SessionStatus.t -> SessionStatus.t.

(** [setSession] *)
Definition setSession (now : time.Time)
    (accountID session vpnUser vpnPass wgPublicKey wgPrivateKey wgLocalIP : string)
    (p : Preferences) : Preferences :=
  let s := SessionStatus.mk
             (strings.TrimSpace accountID)
             (strings.TrimSpace session)
             (strings.TrimSpace vpnUser)
             (strings.TrimSpace vpnPass)
             EmptyString EmptyString EmptyString time.zero
             (SessionStatus.WGKeysRegenInerval (Session p)) in
  let s := if SessionStatus.WGKeysRegenInerval s <=? 0
           then SessionStatus.setWGKeysRegenInerval DefaultWGKeysInterval s
           else s in
  setSessionStatus (updateWgCredentials now wgPublicKey wgPrivateKey wgLocalIP s) p.

(** [SetSession] *)
Definition SetSession (now : time.Time)
    (accountID session vpnUser vpnPass wgPublicKey wgPrivateKey wgLocalIP : string)
    (p : Preferences) (d : Disk) : Preferences * Disk :=
  let p := setSession now accountID session vpnUser vpnPass
                      wgPublicKey wgPrivateKey wgLocalIP p in
  (p, fst (SavePreferences p d)).

(** [UpdateWgCredentials] *)
Definition UpdateWgCredentials (now : time.Time)
    (wgPublicKey wgPrivateKey wgLocalIP : string)
    (p : Preferences) (d : Disk) : Preferences * Disk :=
  let p := setSessionStatus
             (updateWgCredentials now wgPublicKey wgPrivateKey wgLocalIP (Session p)) p in
  (p, fst (SavePreferences p d)).

End WithEnvironment.

End preferences.

(** ** Package [wgkeys]: the keys manager, one call at a time *)

Module wgkeys.

(** A [net.IP], in its textual form. *)
Definition IP := string.

(** What [WireGuardGetKeys] returns. *)
Record Keys : Type := mkKeys {
  session : string;
  wgPublicKey : string;
  wgPrivateKey : string;
  wgLocalIP : string;
  generatedTime : time.Time;
  updateInterval : time.Duration
}.

(** [IWgKeysChangeReceiver], over the state [R] of the object behind the
    interface.  [WireGuardSaveNewKeys] also takes the reading of the clock
    that the receiver makes when it stores the keys. *)
Class IWgKeysChangeReceiver (R : Type) : Type := {
  WireGuardSaveNewKeys : time.Time -> string -> string -> IP -> R -> R;
  WireGuardGetKeys : R -> Keys;
  Connected : R -> bool
}.

(** The one receiver of the daemon: an interface value is [nil] or refers
    to it. *)
Inductive Ref : Type := theService.

(** [KeysManager].  [_stopKeysRotation] is an unbuffered channel: its state is
    the number of goroutines that wait to receive from it.  [_mutex] is free
    between the calls of this section; [rotation] below has it. *)
Record KeysManager : Type := mkKeysManager {
  _service : option Ref;
  _wgToolBinPath : string;
  _stopKeysRotation : nat
}.

(** [CreateKeysManager] *)
Definition CreateKeysManager (wgToolBinPath : string) : KeysManager :=
  mkKeysManager None wgToolBinPath 0.

(** What a call does to the outside, in order. *)
Inductive Event : Type :=
| EvLock
| EvUnlock
| EvGenerateKeys (wgToolBinPath : string)
| EvWireGuardKeySet (session newKey activeKeyToUpdate : string)
| EvSaveNewKeys (wgPublicKey wgPrivateKey : string) (wgLocalIP : IP)
| EvStop (received : bool)
| EvGo
| EvAfter (waitInterval : time.Duration).

(** What the outside answers: the successive readings of the clock, and the
    answers of [wireguard.GenerateKeys] and of the API's [WireGuardKeySet] to
    their successive calls. *)
Record Env : Type := mkEnv {
  now : nat -> time.Time;
  wireguard_GenerateKeys : nat -> string -> string * string * error;
  api_WireGuardKeySet : nat -> string -> string -> string -> IP * error
}.

Section Manager.

Context {R : Type} {receiver : IWgKeysChangeReceiver R}.
Variable env : Env.

Record World : Type := mkWorld {
  manager : KeysManager;
  service : R;
  reads : nat;
  keygens : nat;
  issues : nat;
  trace : list Event
}.

(** State passing, as a monad. *)
Definition M (A : Type) : Type := World -> A * World.

Definition ret {A : Type} (a : A) : M A := fun w => (a, w).

Definition bind {A B : Type} (c : M A) (k : A -> M B) : M B :=
  fun w => let (a, w') := c w in k a w'.

Notation "x <- c ;; k" := (bind c (fun x => k))
  (at level 61, c at next level, right associativity).
Notation "' pat <- c ;; k" := (bind c (fun x => match x with pat => k end))
  (at level 61, pat pattern, c at next level, right associativity).
Notation "c ;; k" := (bind c (fun _ => k))
  (at level 61, right associativity).

Definition emit (e : Event) : M unit :=
  fun w => (tt, mkWorld (manager w) (service w) (reads w) (keygens w) (issues w)
                        (trace w ++ [e])).

Definition getManager : M KeysManager := fun w => (manager w, w).

Definition putManager (m : KeysManager) : M unit :=
  fun w => (tt, mkWorld m (service w) (reads w) (keygens w) (issues w) (trace w)).

(** [time.Now()] *)
Definition time_Now : M time.Time :=
  fun w => (now env (reads w),
            mkWorld (manager w) (service w) (S (reads w)) (keygens w) (issues w)
                    (trace w)).

(** [time.Until(t)] *)
Definition time_Until (t : time.Time) : M time.Duration :=
  n <- time_Now ;; ret (time.Sub t n).

(** [m._service.WireGuardGetKeys()] *)
Definition service_WireGuardGetKeys : M Keys :=
  fun w => (WireGuardGetKeys (service w), w).

(** [m._service.Connected()] *)
Definition service_Connected : M bool :=
  fun w => (Connected (service w), w).

(** [m._service.WireGuardSaveNewKeys(pub, priv, localIP)] *)
Definition service_WireGuardSaveNewKeys (pub priv : string) (localIP : IP) : M unit :=
  emit (EvSaveNewKeys pub priv localIP) ;;
  n <- time_Now ;;
  fun w => (tt, mkWorld (manager w)
                        (WireGuardSaveNewKeys n pub priv localIP (service w))
                        (reads w) (keygens w) (issues w) (trace w)).

(** [wireguard.GenerateKeys(m._wgToolBinPath)] *)
Definition call_wireguard_GenerateKeys (wgToolBinPath : string)
  : M (string * string * error) :=
  emit (EvGenerateKeys wgToolBinPath) ;;
  fun w => (wireguard_GenerateKeys env (keygens w) wgToolBinPath,
            mkWorld (manager w) (service w) (reads w) (S (keygens w)) (issues w)
                    (trace w)).

(** [m._apiObj.WireGuardKeySet(session, pub, activeKeyToUpdate)] *)
Definition call_api_WireGuardKeySet (session pub activeKeyToUpdate : string)
  : M (IP * error) :=
  emit (EvWireGuardKeySet session pub activeKeyToUpdate) ;;
  fun w => (api_WireGuardKeySet env (issues w) session pub activeKeyToUpdate,
            mkWorld (manager w) (service w) (reads w) (keygens w) (S (issues w))
                    (trace w)).

(** [Init] *)
Definition Init (receiver : option Ref) : M error :=
  m <- getManager ;;
  match receiver, _service m with
  | Some r, None =>
      putManager (mkKeysManager (Some r) (_wgToolBinPath m) (_stopKeysRotation m)) ;;
      ret None
  | _, _ => ret (Some "failed to initialize WG KeysManager"%string)
  end.

(** [StopKeysRotation]: the send goes through when a goroutine is waiting to
    receive, which then leaves its loop; otherwise nothing happens. *)
Definition StopKeysRotation : M unit :=
  m <- getManager ;;
  match _stopKeysRotation m with
  | S k =>
      putManager (mkKeysManager (_service m) (_wgToolBinPath m) k) ;;
      emit (EvStop true)
  | O => emit (EvStop false)
  end.

(** The [go] statement of [StartKeysRotation]: the new goroutine runs
    [rotationLoop] below on its own, from [isLastUpdateFailed = false], and is
    taken to have reached the [select] of its first iteration. *)
Definition go_rotationLoop : M unit :=
  emit EvGo ;;
  m <- getManager ;;
  putManager (mkKeysManager (_service m) (_wgToolBinPath m) (S (_stopKeysRotation m))).

(** [StartKeysRotation] *)
Definition StartKeysRotation : M error :=
  m <- getManager ;;
  match _service m with
  | None =>
      ret (Some "unable to start WG keys rotation (KeysManager not initialized)"%string)
  | Some _ =>
      StopKeysRotation ;;
      k <- service_WireGuardGetKeys ;;
      let activePublicKey := wgPublicKey k in
      let interval := updateInterval k in
      if interval <=? 0 then
        ret (Some "unable to start WG keys rotation (update interval not defined)"%string)
      else if isEmpty activePublicKey then
        ret None
      else
        go_rotationLoop ;;
        ret None
  end.

(** The closure [isNecessaryUpdate] of [generateKeys], over the variables it
    captures. *)
Definition isNecessaryUpdate (onlyUpdateIfNecessary : bool)
    (activePublicKey : string) (lastUpdate : time.Time) (interval : time.Duration)
  : M (bool * error) :=
  if negb onlyUpdateIfNecessary then ret (true, None)
  else if interval <=? 0 then
    ret (false,
         Some "unable to 'GenerateOrUpdateKeys' (update interval is not defined)"%string)
  else if negb (isEmpty activePublicKey) then
    n <- time_Now ;;
    if time.After (time.Add lastUpdate interval) n
    then ret (false, None)
    else ret (true, None)
  else ret (true, None).

Definition isError (e : error) : bool :=
  match e with Some _ => true | None => false end.

(** [generateKeys] *)
Definition generateKeys (onlyUpdateIfNecessary : bool) : M error :=
  m <- getManager ;;
  match _service m with
  | None => ret (Some "WG KeysManager not initialized"%string)
  | Some _ =>
      k <- service_WireGuardGetKeys ;;
      ' (haveToUpdate, err) <-
        isNecessaryUpdate onlyUpdateIfNecessary
          (wgPublicKey k) (generatedTime k) (updateInterval k) ;;
      if negb haveToUpdate || isError err then ret err
      else
        emit EvLock ;;
        retErr <-
          (k <- service_WireGuardGetKeys ;;
           let session := session k in
           let activePublicKey := wgPublicKey k in
           ' (haveToUpdate, err) <-
             isNecessaryUpdate onlyUpdateIfNecessary
               activePublicKey (generatedTime k) (updateInterval k) ;;
           if negb haveToUpdate || isError err then ret err
           else
             ' (pub, priv, err) <- call_wireguard_GenerateKeys (_wgToolBinPath m) ;;
             if isError err then ret err
             else
               c <- service_Connected ;;
               let activeKeyToUpdate :=
                 if negb c then EmptyString else activePublicKey in
               ' (localIP, err) <-
                 call_api_WireGuardKeySet session pub activeKeyToUpdate ;;
               if isError err then ret err
               else
                 service_WireGuardSaveNewKeys pub priv localIP ;;
                 (if isEmpty activePublicKey
                  then _ <- StartKeysRotation ;; ret tt
                  else ret tt) ;;
                 ret None) ;;
        emit EvUnlock ;;
        ret retErr
  end.

(** [GenerateKeys] *)
Definition GenerateKeys : M error := generateKeys false.

(** [UpdateKeysIfNecessary] *)
Definition UpdateKeysIfNecessary : M error := generateKeys true.

(** The wait that an iteration of the rotation loop computes before its
    [select]. *)
Definition waitInterval (isLastUpdateFailed : bool) : M time.Duration :=
  k <- service_WireGuardGetKeys ;;
  let lastUpdate := generatedTime k in
  let interval := updateInterval k in
  waitInterval <- time_Until (time.Add lastUpdate interval) ;;
  ' (waitInterval, lastUpdate) <-
    (if isLastUpdateFailed
     then n <- time_Now ;; ret (time.Hour, n)
     else ret (waitInterval, lastUpdate)) ;;
  n <- time_Now ;;
  if time.Before (time.Add lastUpdate waitInterval) n
  then ret time.Second
  else ret waitInterval.

(** Which case of the [select] comes first. *)
Inductive Select : Type := TimerFired | StopReceived.

(** The goroutine leaves its [select] by the timer, and comes back to it. *)
Definition leaveSelect : M unit :=
  m <- getManager ;;
  putManager (mkKeysManager (_service m) (_wgToolBinPath m)
                            (Nat.pred (_stopKeysRotation m))).

Definition enterSelect : M unit :=
  m <- getManager ;;
  putManager (mkKeysManager (_service m) (_wgToolBinPath m)
                            (S (_stopKeysRotation m))).

(** One iteration of the loop of the goroutine: the new [needStop] and
    [isLastUpdateFailed]. *)
Definition iteration (sel : Select) (isLastUpdateFailed : bool) : M (bool * bool) :=
  waitInterval <- waitInterval isLastUpdateFailed ;;
  emit (EvAfter waitInterval) ;;
  match sel with
  | TimerFired =>
      leaveSelect ;;
      err <- UpdateKeysIfNecessary ;;
      enterSelect ;;
      if isError err then ret (false, true)
      else _ <- time_Now ;; ret (false, false)
  | StopReceived => ret (true, isLastUpdateFailed)
  end.

(** The loop, for the cases of [select] that the outside decides one after
    the other: it ends at the first stop. *)
Fixpoint rotationLoop (sels : list Select) (isLastUpdateFailed : bool) : M bool :=
  match sels with
  | [] => ret isLastUpdateFailed
  | sel :: sels =>
      ' (needStop, isLastUpdateFailed) <- iteration sel isLastUpdateFailed ;;
      if needStop then ret isLastUpdateFailed
      else rotationLoop sels isLastUpdateFailed
  end.

(** The events that a call adds to the trace of [w]. *)
Definition since (w w' : World) : list Event :=
  skipn (length (trace w)) (trace w').

(** The due rule of the spec for the call [generateKeys b], on the keys [k]
    and for the readings [t1] and [t2] that the two checks take from the
    clock: forced, or an interval with no key or with both readings at or past
    the due time. *)
Definition Due (b : bool) (k : Keys) (t1 t2 : time.Time) : Prop :=
  b = false
  \/ (0 < updateInterval k
      /\ (wgPublicKey k = EmptyString
          \/ (generatedTime k + updateInterval k <= t1
              /\ generatedTime k + updateInterval k <= t2))).

(** The world once [WireGuardSaveNewKeys] has returned, for the events
    [evs] so far and the reading [r] of the clock that the save takes. *)
Definition saved (w : World) (evs : list Event) (r : nat)
    (pub priv : string) (ip : IP) : World :=
  mkWorld (manager w)
    (WireGuardSaveNewKeys (now env r) pub priv ip (service w))
    (S r) (S (keygens w)) (S (issues w)) (trace w ++ evs).

(** The outcomes of a call [generateKeys b] from the world [w], under the
    names the spec gives them: the error returned and the world left. *)
Inductive Outcome (b : bool) (w : World) : error -> World -> Prop :=
| NotInitialized :
    _service (manager w) = None ->
    Outcome b w (Some "WG KeysManager not initialized"%string) w
| IntervalUndefined :
    _service (manager w) <> None ->
    b = true ->
    updateInterval (WireGuardGetKeys (service w)) <= 0 ->
    Outcome b w
      (Some "unable to 'GenerateOrUpdateKeys' (update interval is not defined)"%string)
      w
| NotDue w' :
    _service (manager w) <> None ->
    b = true ->
    0 < updateInterval (WireGuardGetKeys (service w)) ->
    wgPublicKey (WireGuardGetKeys (service w)) <> EmptyString ->
    manager w' = manager w ->
    service w' = service w ->
    keygens w' = keygens w ->
    issues w' = issues w ->
    (now env (reads w)
       < generatedTime (WireGuardGetKeys (service w))
         + updateInterval (WireGuardGetKeys (service w))
     /\ reads w' = S (reads w)
     /\ trace w' = trace w)
    \/ (now env (S (reads w))
         < generatedTime (WireGuardGetKeys (service w))
           + updateInterval (WireGuardGetKeys (service w))
           <= now env (reads w)
        /\ reads w' = S (S (reads w))
        /\ trace w' = trace w ++ [EvLock; EvUnlock]) ->
    Outcome b w None w'
| KeyGenFailed pub priv e w' :
    _service (manager w) <> None ->
    Due b (WireGuardGetKeys (service w)) (now env (reads w)) (now env (S (reads w))) ->
    wireguard_GenerateKeys env (keygens w) (_wgToolBinPath (manager w))
      = (pub, priv, Some e) ->
    manager w' = manager w ->
    service w' = service w ->
    keygens w' = S (keygens w) ->
    issues w' = issues w ->
    trace w' = trace w
               ++ [EvLock; EvGenerateKeys (_wgToolBinPath (manager w)); EvUnlock] ->
    Outcome b w (Some e) w'
| IssuanceFailed pub priv old ip e w' :
    _service (manager w) <> None ->
    Due b (WireGuardGetKeys (service w)) (now env (reads w)) (now env (S (reads w))) ->
    wireguard_GenerateKeys env (keygens w) (_wgToolBinPath (manager w))
      = (pub, priv, None) ->
    old = (if Connected (service w)
           then wgPublicKey (WireGuardGetKeys (service w))
           else EmptyString) ->
    api_WireGuardKeySet env (issues w)
      (session (WireGuardGetKeys (service w))) pub old = (ip, Some e) ->
    manager w' = manager w ->
    service w' = service w ->
    keygens w' = S (keygens w) ->
    issues w' = S (issues w) ->
    trace w' = trace w
               ++ [EvLock; EvGenerateKeys (_wgToolBinPath (manager w));
                   EvWireGuardKeySet (session (WireGuardGetKeys (service w))) pub old;
                   EvUnlock] ->
    Outcome b w (Some e) w'
| Success pub priv old ip r w1 w2 w' :
    _service (manager w) <> None ->
    Due b (WireGuardGetKeys (service w)) (now env (reads w)) (now env (S (reads w))) ->
    wireguard_GenerateKeys env (keygens w) (_wgToolBinPath (manager w))
      = (pub, priv, None) ->
    old = (if Connected (service w)
           then wgPublicKey (WireGuardGetKeys (service w))
           else EmptyString) ->
    api_WireGuardKeySet env (issues w)
      (session (WireGuardGetKeys (service w))) pub old = (ip, None) ->
    (reads w <= r <= S (S (reads w)))%nat ->
    w1 = saved w
           [EvLock; EvGenerateKeys (_wgToolBinPath (manager w));
            EvWireGuardKeySet (session (WireGuardGetKeys (service w))) pub old;
            EvSaveNewKeys pub priv ip]
           r pub priv ip ->
    w2 = (if isEmpty (wgPublicKey (WireGuardGetKeys (service w)))
          then snd (StartKeysRotation w1)
          else w1) ->
    w' = snd (emit EvUnlock w2) ->
    Outcome b w None w'.

End Manager.

(** A receiver that hands out what it was given to save: after
    [WireGuardSaveNewKeys], [WireGuardGetKeys] returns the new public key, the
    time of the save and the interval of before. *)
Class KeepsKeys (R : Type) {receiver : IWgKeysChangeReceiver R} : Prop := {
  saved_wgPublicKey : forall t pub priv ip (s : R),
    wgPublicKey (WireGuardGetKeys (WireGuardSaveNewKeys t pub priv ip s)) = pub;
  saved_generatedTime : forall t pub priv ip (s : R),
    generatedTime (WireGuardGetKeys (WireGuardSaveNewKeys t pub priv ip s)) = t;
  saved_updateInterval : forall t pub priv ip (s : R),
    updateInterval (WireGuardGetKeys (WireGuardSaveNewKeys t pub priv ip s))
    = updateInterval (WireGuardGetKeys s)
}.

Definition isGenerateKeys (e : Event) : bool :=
  match e with EvGenerateKeys _ => true | _ => false end.

Definition isWireGuardKeySet (e : Event) : bool :=
  match e with EvWireGuardKeySet _ _ _ => true | _ => false end.

Definition isSaveNewKeys (e : Event) : bool :=
  match e with EvSaveNewKeys _ _ _ => true | _ => false end.

Definition isGo (e : Event) : bool :=
  match e with EvGo => true | _ => false end.

Definition isAfter (e : Event) : bool :=
  match e with EvAfter _ => true | _ => false end.

End wgkeys.

(** ** Package [wgkeys]: [generateKeys] run by several goroutines *)

Module rotation.

Import wgkeys.

(** Where a goroutine stands in [generateKeys], with the variables it holds:
    before line 164; at the check of line 191 with the keys read at line 170;
    at [m._mutex.Lock()]; at the read of line 199; at the check of line 200;
    at the calls of lines 206, 215, 219, 227 and 230; at the deferred
    [Unlock]; returned. *)
Inductive PC : Type :=
| pcStart
| pcCheck (k : Keys)
| pcLock
| pcRead
| pcRecheck (k : Keys)
| pcGenerateKeys (k : Keys)
| pcConnected (k : Keys) (pub priv : string)
| pcKeySet (k : Keys) (pub priv activeKeyToUpdate : string)
| pcSaveNewKeys (k : Keys) (pub priv : string) (localIP : IP)
| pcStartKeysRotation (k : Keys)
| pcUnlock (retErr : error)
| pcReturn (retErr : error).

(** Past [Lock] and not past [Unlock]. *)
Definition locked (pc : PC) : bool :=
  match pc with
  | pcStart | pcCheck _ | pcLock | pcReturn _ => false
  | _ => true
  end.

(** A call of [generateKeys]: its argument and where it stands. *)
Record Goroutine : Type := mkGoroutine {
  onlyUpdateIfNecessary : bool;
  pc : PC
}.

(** [isNecessaryUpdate] on the keys [k], for the reading [t] of the clock
    that it takes when it comes to compare. *)
Definition isNecessaryUpdate (onlyUpdateIfNecessary : bool) (k : Keys)
    (t : time.Time) : bool * error :=
  if negb onlyUpdateIfNecessary then (true, None)
  else if updateInterval k <=? 0 then
    (false,
     Some "unable to 'GenerateOrUpdateKeys' (update interval is not defined)"%string)
  else if negb (isEmpty (wgPublicKey k)) then
    if time.After (time.Add (generatedTime k) (updateInterval k)) t
    then (false, None)
    else (true, None)
  else (true, None).

(** What the outside answers to the goroutine that moves, should its
    statement be a call of [wireguard.GenerateKeys] or of the API. *)
Record Answer : Type := mkAnswer {
  generated : string * string * error;
  assigned : IP * error
}.

Section Goroutines.

Context {R : Type} {receiver : IWgKeysChangeReceiver R}.

(** The manager, its receiver and the clock, shared by the calls in flight.
    [_mutex] records the goroutine that has locked it. *)
Record State : Type := mkState {
  _service : option Ref;
  service : R;
  _mutex : option nat;
  clock : time.Time;
  goroutines : nat -> option Goroutine;
  next : nat
}.

Definition set (i : nat) (g : Goroutine) (gs : nat -> option Goroutine)
  : nat -> option Goroutine :=
  fun j => if Nat.eqb j i then Some g else gs j.

Definition goto (i : nat) (b : bool) (p : PC) (s : State) : State :=
  mkState (_service s) (service s) (_mutex s) (clock s)
          (set i (mkGoroutine b p) (goroutines s)) (next s).

(** The statement that goroutine [i] is at, run in one piece; [None] when the
    goroutine cannot move: it is not there, has returned, or waits for the
    lock. *)
Definition statement (i : nat) (a : Answer) (s : State) : option State :=
  match goroutines s i with
  | None => None
  | Some (mkGoroutine b p) =>
      match p with
      | pcStart =>
          match _service s with
          | None =>
              Some (goto i b (pcReturn (Some "WG KeysManager not initialized"%string)) s)
          | Some _ => Some (goto i b (pcCheck (WireGuardGetKeys (service s))) s)
          end
      | pcCheck k =>
          let (haveToUpdate, err) := isNecessaryUpdate b k (clock s) in
          if negb haveToUpdate || isError err
          then Some (goto i b (pcReturn err) s)
          else Some (goto i b pcLock s)
      | pcLock =>
          match _mutex s with
          | Some _ => None
          | None =>
              Some (mkState (_service s) (service s) (Some i) (clock s)
                            (set i (mkGoroutine b pcRead) (goroutines s)) (next s))
          end
      | pcRead => Some (goto i b (pcRecheck (WireGuardGetKeys (service s))) s)
      | pcRecheck k =>
          let (haveToUpdate, err) := isNecessaryUpdate b k (clock s) in
          if negb haveToUpdate || isError err
          then Some (goto i b (pcUnlock err) s)
          else Some (goto i b (pcGenerateKeys k) s)
      | pcGenerateKeys k =>
          let '(pub, priv, err) := generated a in
          if isError err
          then Some (goto i b (pcUnlock err) s)
          else Some (goto i b (pcConnected k pub priv) s)
      | pcConnected k pub priv =>
          let activeKeyToUpdate :=
            if negb (Connected (service s)) then EmptyString else wgPublicKey k in
          Some (goto i b (pcKeySet k pub priv activeKeyToUpdate) s)
      | pcKeySet k pub priv activeKeyToUpdate =>
          let (localIP, err) := assigned a in
          if isError err
          then Some (goto i b (pcUnlock err) s)
          else Some (goto i b (pcSaveNewKeys k pub priv localIP) s)
      | pcSaveNewKeys k pub priv localIP =>
          Some (mkState (_service s)
                        (WireGuardSaveNewKeys (clock s) pub priv localIP (service s))
                        (_mutex s) (clock s)
                        (set i (mkGoroutine b (pcStartKeysRotation k)) (goroutines s))
                        (next s))
      | pcStartKeysRotation k => Some (goto i b (pcUnlock None) s)
      | pcUnlock retErr =>
          Some (mkState (_service s) (service s) None (clock s)
                        (set i (mkGoroutine b (pcReturn retErr)) (goroutines s))
                        (next s))
      | pcReturn _ => None
      end
  end.

(** What can happen next: somebody calls [GenerateKeys] or
    [UpdateKeysIfNecessary], be it the rotation loop or another part of the
    daemon; time passes; a goroutine runs its statement. *)
Inductive Move : Type :=
| Call (onlyUpdateIfNecessary : bool)
| Pass (d : time.Duration)
| Run (i : nat) (a : Answer).

Definition move (m : Move) (s : State) : option State :=
  match m with
  | Call b =>
      Some (mkState (_service s) (service s) (_mutex s) (clock s)
                    (set (next s) (mkGoroutine b pcStart) (goroutines s))
                    (S (next s)))
  | Pass d =>
      if d <? 0 then None
      else Some (mkState (_service s) (service s) (_mutex s) (clock s + d)
                         (goroutines s) (next s))
  | Run i a => statement i a s
  end.

Fixpoint moves (ms : list Move) (s : State) : option State :=
  match ms with
  | [] => Some s
  | m :: ms =>
      match move m s with
      | Some s' => moves ms s'
      | None => None
      end
  end.

(** The daemon between calls: nobody in [generateKeys], the lock free. *)
Definition idle (bound : option Ref) (r : R) (t : time.Time) : State :=
  mkState bound r None t (fun _ => None) 0.

(** Goroutine [i] is past [Lock] and not past [Unlock]. *)
Definition inside (s : State) (i : nat) : Prop :=
  exists g, goroutines s i = Some g /\ locked (pc g) = true.

(** Goroutine [i] stands at [p]. *)
Definition at_pc (s : State) (i : nat) (b : bool) (p : PC) : Prop :=
  goroutines s i = Some (mkGoroutine b p).

(** Goroutine [i] run on its own, for [n] statements or until it cannot
    move. *)
Fixpoint alone (n : nat) (i : nat) (a : Answer) (s : State) : State :=
  match n with
  | O => s
  | S n =>
      match statement i a s with
      | Some s' => alone n i a s'
      | None => s
      end
  end.

(** One call, made when nobody else is in [generateKeys], and run to its
    return. *)
Definition single (b : bool) (a : Answer) (bound : option Ref) (r : R)
    (t : time.Time) : State :=
  match move (Call b) (idle bound r t) with
  | Some s => alone 11 0 a s
  | None => idle bound r t
  end.

(** The keys that a goroutine between the read under the lock and the save
    still decides on. *)
Definition keysOf (p : PC) : option Keys :=
  match p with
  | pcRecheck k | pcGenerateKeys k | pcConnected k _ _
  | pcKeySet k _ _ _ | pcSaveNewKeys k _ _ _ => Some k
  | _ => None
  end.

(** What holds between any two moves: the goroutine inside is the one that
    has the lock; the goroutines are numbered below [next]; the keys that the
    goroutine inside decides on are the ones of the receiver. *)
Definition Invariant (s : State) : Prop :=
  (forall i, inside s i <-> _mutex s = Some i)
  /\ (forall i g, goroutines s i = Some g -> (i < next s)%nat)
  /\ (forall i g k,
        goroutines s i = Some g -> keysOf (pc g) = Some k ->
        k = WireGuardGetKeys (service s)).

End Goroutines.

End rotation.

(** ** The receiver of the daemon *)

Module service.

(** Modelled from the spec: the service object that implements
    [IWgKeysChangeReceiver] is not part of the sources at hand.  By the
    spec's section on external interfaces, the credential store hands out the
    session token, the key material, its generation time and the interval,
    commits a rotation by persisting the keypair, the address and the
    generated-now timestamp, and answers whether the tunnel is connected.
    The store is the [Preferences] of the daemon with its settings file. *)
Record Service : Type := mkService {
  _preferences : preferences.Preferences;
  disk : preferences.Disk;
  connected : bool
}.

Section WithEnvironment.

Variable SettingsFile : string.
Context {codec : preferences.Codec}.

(** Modelled from the spec: [getCurrentKeyState], the session token, the
    key material, its generation time and the interval of the store. *)
Definition WireGuardGetKeys (s : Service) : wgkeys.Keys :=
  let st := preferences.Session (_preferences s) in
  wgkeys.mkKeys
    (preferences.SessionStatus.Session st)
    (preferences.SessionStatus.WGPublicKey st)
    (preferences.SessionStatus.WGPrivateKey st)
    (preferences.SessionStatus.WGLocalIP st)
    (preferences.SessionStatus.WGKeyGenerated st)
    (preferences.SessionStatus.WGKeysRegenInerval st).

(** Modelled from the spec: [persistNewKeyState], through the
    [UpdateWgCredentials] of [Preferences]. *)
Definition WireGuardSaveNewKeys (now : time.Time)
    (wgPublicKey wgPrivateKey : string) (wgLocalIP : wgkeys.IP) (s : Service)
  : Service :=
  let (p, d) :=
    preferences.UpdateWgCredentials SettingsFile
      preferences.SessionStatus.updateWgCredentials
      now wgPublicKey wgPrivateKey wgLocalIP (_preferences s) (disk s) in
  mkService p d (connected s).

(** Modelled from the spec: [isTunnelConnected]. *)
Definition Connected (s : Service) : bool := connected s.

#[export] Instance receiver : wgkeys.IWgKeysChangeReceiver Service := {
  wgkeys.WireGuardSaveNewKeys := WireGuardSaveNewKeys;
  wgkeys.WireGuardGetKeys := WireGuardGetKeys;
  wgkeys.Connected := Connected
}.

End WithEnvironment.

End service.

(** ** A daemon to run the definitions on *)

Module example.

Definition day : time.Duration := 24 * time.Hour.

(** An instant of 2020, counted from year 1. *)
Definition t2020 : time.Time := 63713433600 * time.Second.

Definition settingsFile : string := "/opt/ivpn/etc/settings.json"%string.

Definition session0 : preferences.SessionStatus.t :=
  preferences.SessionStatus.mk
    "i-ABCD-1234"%string "token"%string "user"%string "pass"%string
    "pubOld"%string "privOld"%string "172.16.0.2"%string
    t2020 (7 * day).

Definition prefs0 : preferences.Preferences :=
  preferences.mkPreferences false false true false true false session0.

(** The same daemon before its first key. *)
Definition sessionNoKey : preferences.SessionStatus.t :=
  preferences.SessionStatus.mk
    "i-ABCD-1234"%string "token"%string "user"%string "pass"%string
    EmptyString EmptyString EmptyString time.zero (7 * day).

Definition prefsNoKey : preferences.Preferences :=
  preferences.mkPreferences false false true false true false sessionNoKey.

(** Settings as a release before the rotation interval wrote them: no key,
    a stale generation time, no interval. *)
Definition sessionStale : preferences.SessionStatus.t :=
  preferences.SessionStatus.mk
    "i-ABCD-1234"%string "token"%string "user"%string "pass"%string
    "pubOld"%string EmptyString "172.16.0.2"%string t2020 0.

Definition prefsStale : preferences.Preferences :=
  preferences.mkPreferences false false true false true false sessionStale.

(** A stand-in for [encoding/json]: the text of the file names the settings
    it decodes to. *)
#[export] Instance codec : preferences.Codec := {
  preferences.json_Marshal := fun _ => ("{}"%string, None);
  preferences.json_Unmarshal := fun data p =>
    if String.eqb data "stale" then (prefsStale, None)
    else if String.eqb data "fresh" then (prefs0, None)
    else (p, Some "invalid character"%string);
  preferences.json_UnmarshalOld := fun data o =>
    (preferences.mkPreferencesOld "1" "0" "1" "0" "1" "0", None)
}.

Definition diskWith (data : string) : preferences.Disk :=
  preferences.mkDisk
    (fun q => if String.eqb q settingsFile then Some data else None)
    (fun _ => false).

Definition service0 (c : bool) : service.Service :=
  service.mkService prefs0 (diskWith "fresh") c.

Definition serviceNoKey : service.Service :=
  service.mkService prefsNoKey (diskWith "fresh") false.

#[export] Instance daemonReceiver : wgkeys.IWgKeysChangeReceiver service.Service :=
  service.receiver settingsFile.

(** A clock that shows [t] at every reading, a key generator and an API that
    answer, or fail when told so. *)
Definition env (t : time.Time) (keygenFails issueFails : bool) : wgkeys.Env :=
  wgkeys.mkEnv
    (fun _ => t)
    (fun k _ =>
       if keygenFails then (EmptyString, EmptyString, Some "wg: exit status 1"%string)
       else ("pubNew"%string, "privNew"%string, None))
    (fun k _ _ _ =>
       if issueFails then (EmptyString, Some "API: request failed"%string)
       else ("172.16.0.9"%string, None)).

Definition manager0 : wgkeys.KeysManager :=
  wgkeys.mkKeysManager (Some wgkeys.theService) "/usr/bin/wg"%string 0.

Definition world (s : service.Service) : wgkeys.World :=
  wgkeys.mkWorld manager0 s 0 0 0 [].

(** Two calls of [UpdateKeysIfNecessary] on a key of eight days: both find
    the update necessary; the first takes the lock and goes through, while
    the second waits; a second later the second has the lock and has read the
    keys again. *)
Definition answer : rotation.Answer :=
  rotation.mkAnswer ("pubNew"%string, "privNew"%string, None)
                    ("172.16.0.9"%string, None).

Definition bothDue : list rotation.Move :=
  [rotation.Call true; rotation.Call true;
   rotation.Run 0 answer; rotation.Run 1 answer;
   rotation.Run 0 answer; rotation.Run 1 answer].

Definition firstRotates : list rotation.Move :=
  List.repeat (rotation.Run 0 answer) 9.

Definition secondReads : list rotation.Move :=
  [rotation.Pass time.Second; rotation.Run 1 answer; rotation.Run 1 answer].

Definition start : rotation.State :=
  rotation.idle (Some wgkeys.theService) (service0 true) (t2020 + 8 * day).

Definition after (ms : list rotation.Move) : rotation.State :=
  match rotation.moves ms start with
  | Some s => s
  | None => start
  end.

End example.

(** ** What the rotation loop is asked to do *)

(** The iterations that the loop runs for the cases [sels] of its [select]:
    one per timer, up to and with the first stop. *)
Fixpoint executed (sels : list wgkeys.Select) : nat :=
  match sels with
  | [] => 0
  | wgkeys.StopReceived :: _ => 1
  | wgkeys.TimerFired :: sels => S (executed sels)
  end.

(** The cases of [sels] up to and with the first stop. *)
Fixpoint untilStop (sels : list wgkeys.Select) : list wgkeys.Select :=
  match sels with
  | [] => []
  | wgkeys.StopReceived :: _ => [wgkeys.StopReceived]
  | wgkeys.TimerFired :: sels => wgkeys.TimerFired :: untilStop sels
  end.

Definition isLockOrUnlock (e : wgkeys.Event) : bool :=
  match e with wgkeys.EvLock | wgkeys.EvUnlock => true | _ => false end.

Definition isStop (e : wgkeys.Event) : bool :=
  match e with wgkeys.EvStop _ => true | _ => false end.

(** The statements that a goroutine at [p] has left at most before it has
    returned. *)
Definition remaining (p : rotation.PC) : nat :=
  match p with
  | rotation.pcStart => 11
  | rotation.pcCheck _ => 10
  | rotation.pcLock => 9
  | rotation.pcRead => 8
  | rotation.pcRecheck _ => 7
  | rotation.pcGenerateKeys _ => 6
  | rotation.pcConnected _ _ _ => 5
  | rotation.pcKeySet _ _ _ _ => 4
  | rotation.pcSaveNewKeys _ _ _ _ => 3
  | rotation.pcStartKeysRotation _ => 2
  | rotation.pcUnlock _ => 1
  | rotation.pcReturn _ => 0
  end.

(** A stand-in for [encoding/json] that writes what [example.codec] reads:
    the text names the settings by their interval. *)
Definition codecStored : preferences.Codec := {|
  preferences.json_Marshal := fun p =>
    (if preferences.SessionStatus.WGKeysRegenInerval (preferences.Session p) <=? 0
     then "stale"%string else "fresh"%string, None);
  preferences.json_Unmarshal := @preferences.json_Unmarshal example.codec;
  preferences.json_UnmarshalOld := @preferences.json_UnmarshalOld example.codec
|}.

(** ** Package [platform] *)

Module platform.

(** The variables of the package. *)
Record Vars : Type := mkVars {
  settingsFile : string;
  servicePortFile : string;
  serversFile : string;
  logFile : string;
  openvpnLogFile : string;
  openVpnBinaryPath : string;
  openvpnCaKeyFile : string;
  openvpnTaKeyFile : string;
  openvpnConfigFile : string;
  openvpnUpScript : string;
  openvpnDownScript : string;
  openvpnProxyAuthFile : string;
  obfsproxyStartScript : string;
  obfsproxyHostPort : Z;
  wgBinaryPath : string;
  wgToolBinaryPath : string;
  wgConfigFilePath : string
}.

Definition setObfsproxyHostPort (port : Z) (v : Vars) : Vars :=
  mkVars (settingsFile v) (servicePortFile v) (serversFile v) (logFile v)
         (openvpnLogFile v) (openVpnBinaryPath v) (openvpnCaKeyFile v)
         (openvpnTaKeyFile v) (openvpnConfigFile v) (openvpnUpScript v)
         (openvpnDownScript v) (openvpnProxyAuthFile v) (obfsproxyStartScript v)
         port (wgBinaryPath v) (wgToolBinaryPath v) (wgConfigFilePath v).

(** [errors = append(errors, err)] under [if err != nil]. *)
Definition appendError (errors : list string) (err : error) : list string :=
  match err with
  | Some e => errors ++ [e]
  | None => errors
  end.

(** [warnings = append(warnings, fmt.Errorf(what + ": %w", err).Error())]
    under [if err != nil]. *)
Definition appendWarning (warnings : list string) (what : string) (err : error)
  : list string :=
  match err with
  | Some e => warnings ++ [(what ++ ": " ++ e)%string]
  | None => warnings
  end.

Section WithOS.

(** The file system, and what the package calls outside this file:
    [filepath.Dir], [os.MkdirAll], the two checks of package [filerights],
    and the two functions that every operating system defines in a file of
    its own.  [doOsInit] sets the variables; its slices may be nil. *)
Context {FS : Type}.
Variable filepath_Dir : string -> string.
Variable os_MkdirAll : string -> FS -> FS * error.
Variable filerights_CheckFileAccessRigthsStaticConfig : string -> FS -> error.
Variable filerights_CheckFileAccessRigthsExecutable : string -> FS -> error.
Variable doOsInit :
  Vars -> FS -> option (list string) * option (list string) * Vars * FS.
Variable doInitOperations : Vars -> FS -> string * error * Vars * FS.

(** The variables, the files, and the directories that [makeDir] has asked
    [os.MkdirAll] for, the last one last. *)
Record State : Type := mkState {
  vars : Vars;
  fs : FS;
  made : list string
}.

(** [checkFileAccessRigthsStaticConfig] *)
Definition checkFileAccessRigthsStaticConfig (paramName file : string) (f : FS)
  : error :=
  match filerights_CheckFileAccessRigthsStaticConfig file f with
  | Some err => Some ("(" ++ paramName ++ ") " ++ err)%string
  | None => None
  end.

(** [checkFileAccessRigthsExecutable] *)
Definition checkFileAccessRigthsExecutable (paramName file : string) (f : FS)
  : error :=
  match filerights_CheckFileAccessRigthsExecutable file f with
  | Some err => Some ("(" ++ paramName ++ ") " ++ err)%string
  | None => None
  end.

(** [makeDir] *)
Definition makeDir (description dirpath : string) (st : State) : error * State :=
  if isEmpty dirpath then
    (Some ("parameter not initialized: " ++ description)%string, st)
  else
    let (f, err) := os_MkdirAll dirpath (fs st) in
    let st := mkState (vars st) f (made st ++ [dirpath]) in
    match err with
    | Some e =>
        (Some ("unable to create directory error: " ++ e
               ++ " (" ++ description ++ ":" ++ dirpath ++ ")")%string, st)
    | None => (None, st)
    end.

(** [Init]: the warnings, the errors, and the package afterwards. *)
Definition Init (st : State) : list string * list string * State :=
  let st := mkState (setObfsproxyHostPort 5145 (vars st)) (fs st) (made st) in
  let '(warnings, errors, v, f) := doOsInit (vars st) (fs st) in
  let st := mkState v f (made st) in
  let errors := match errors with None => [] | Some errors => errors end in
  let warnings := match warnings with None => [] | Some warnings => warnings end in
  let (err, st) :=
    makeDir "servicePortFile" (filepath_Dir (servicePortFile (vars st))) st in
  let errors := appendError errors err in
  let (err, st) := makeDir "logFile" (filepath_Dir (logFile (vars st))) st in
  let errors := appendError errors err in
  let (err, st) :=
    makeDir "openvpnLogFile" (filepath_Dir (openvpnLogFile (vars st))) st in
  let errors := appendError errors err in
  let (err, st) :=
    makeDir "settingsFile" (filepath_Dir (settingsFile (vars st))) st in
  let errors := appendError errors err in
  let (err, st) :=
    makeDir "openvpnConfigFile" (filepath_Dir (openvpnConfigFile (vars st))) st in
  let errors := appendError errors err in
  let (err, st) :=
    makeDir "wgConfigFilePath" (filepath_Dir (wgConfigFilePath (vars st))) st in
  let errors := appendError errors err in
  let errors :=
    appendError errors
      (checkFileAccessRigthsStaticConfig
         "openvpnCaKeyFile" (openvpnCaKeyFile (vars st)) (fs st)) in
  let errors :=
    appendError errors
      (checkFileAccessRigthsStaticConfig
         "openvpnTaKeyFile" (openvpnTaKeyFile (vars st)) (fs st)) in
  let errors :=
    if negb (isEmpty (openvpnUpScript (vars st))) then
      appendError errors
        (checkFileAccessRigthsExecutable
           "openvpnUpScript" (openvpnUpScript (vars st)) (fs st))
    else errors in
  let errors :=
    if negb (isEmpty (openvpnDownScript (vars st))) then
      appendError errors
        (checkFileAccessRigthsExecutable
           "openvpnDownScript" (openvpnDownScript (vars st)) (fs st))
    else errors in
  let warnings :=
    appendWarning warnings "OpenVPN functionality not accessible"
      (checkFileAccessRigthsExecutable
         "openVpnBinaryPath" (openVpnBinaryPath (vars st)) (fs st)) in
  let warnings :=
    appendWarning warnings "obfsproxy functionality not accessible"
      (checkFileAccessRigthsExecutable
         "obfsproxyStartScript" (obfsproxyStartScript (vars st)) (fs st)) in
  let warnings :=
    appendWarning warnings "WireGuard functionality not accessible"
      (checkFileAccessRigthsExecutable
         "wgBinaryPath" (wgBinaryPath (vars st)) (fs st)) in
  let warnings :=
    appendWarning warnings "WireGuard functionality not accessible"
      (checkFileAccessRigthsExecutable
         "wgToolBinaryPath" (wgToolBinaryPath (vars st)) (fs st)) in
  let '(w, e, v, f) := doInitOperations (vars st) (fs st) in
  let st := mkState v f (made st) in
  let warnings := if negb (isEmpty w) then warnings ++ [w] else warnings in
  let errors := appendError errors e in
  (warnings, errors, st).

(** [SettingsFile] *)
Definition SettingsFile (st : State) : string := settingsFile (vars st).

(** [WgToolBinaryPath] *)
Definition WgToolBinaryPath (st : State) : string := wgToolBinaryPath (vars st).

End WithOS.

End platform.

(** ** An installation *)

Module installation.

(** [filepath.Dir] on a clean absolute path: the path less its last
    element and the separator before it. *)
Fixpoint Dir (path : string) : string :=
  match path with
  | EmptyString => EmptyString
  | String c rest =>
      if strings.Contains rest "/" then String c (Dir rest) else EmptyString
  end.

(** The paths of a Linux installation. *)
Definition paths (port : Z) : platform.Vars :=
  platform.mkVars
    "/opt/ivpn/etc/settings.json" "/opt/ivpn/mutable/port.txt"
    "/opt/ivpn/etc/servers.json" "/opt/ivpn/log/IVPN_Agent.log"
    "/opt/ivpn/log/openvpn.log" "/usr/sbin/openvpn"
    "/opt/ivpn/etc/ca.crt" "/opt/ivpn/etc/ta.key"
    "/opt/ivpn/mutable/openvpn.cfg" "/opt/ivpn/etc/client.up"
    "/opt/ivpn/etc/client.down" "/opt/ivpn/mutable/proxyauth.txt"
    "/opt/ivpn/obfsproxy/obfsproxy" port
    "/usr/bin/wg-quick" "/usr/bin/wg" "/opt/ivpn/mutable/wgivpn.conf".

(** The package before [Init]: no variable set but the port file, which
    [init] sets; no directory made. *)
Definition unset : platform.Vars :=
  platform.mkVars
    EmptyString "/opt/ivpn/mutable/port.txt" EmptyString EmptyString
    EmptyString EmptyString EmptyString EmptyString EmptyString EmptyString
    EmptyString EmptyString EmptyString 0 EmptyString EmptyString EmptyString.

(** The files are the directories there are. *)
Definition start : @platform.State (list string) :=
  platform.mkState unset [] [].

Definition os_MkdirAll (path : string) (f : list string) : list string * error :=
  (f ++ [path], None).

Definition doOsInit (v : platform.Vars) (f : list string)
  : option (list string) * option (list string) * platform.Vars * list string :=
  (None, None, paths (platform.obfsproxyHostPort v), f).

Definition doInitOperations (v : platform.Vars) (f : list string)
  : string * error * platform.Vars * list string :=
  (EmptyString, None, v, f).

(** Every file is there and has the rights it needs. *)
Definition allThere (file : string) (f : list string) : error := None.

(** The same, but WireGuard is not installed. *)
Definition noWireGuard (file : string) (f : list string) : error :=
  if strings.HasPrefix file "/usr/bin/wg"
  then Some ("stat " ++ file ++ ": no such file or directory")%string
  else None.

Definition Init (checkExecutable : string -> list string -> error)
  : list string * list string * @platform.State (list string) :=
  platform.Init Dir os_MkdirAll allThere checkExecutable
                doOsInit doInitOperations start.

End installation.

(** * Properties *)

(** ** Strings and instants *)

Lemma isEmpty_true (s : string) : isEmpty s = true <-> s = EmptyString.
Proof. destruct s; simpl; split; congruence. Qed.

Lemma isEmpty_false (s : string) : isEmpty s = false <-> s <> EmptyString.
Proof. destruct s; simpl; split; congruence. Qed.

Example Contains_marker :
  strings.Contains
    ("{" ++ preferences.oldMarker ++ ":" ++ String preferences.dquote "1}")%string
    preferences.oldMarker = true
  /\ strings.Contains "{}" preferences.oldMarker = false.
Proof. split; reflexivity. Qed.

Example TrimSpace_token :
  strings.TrimSpace "  i-ABCD-1234 " = "i-ABCD-1234"%string.
Proof. reflexivity. Qed.

Lemma Sub_exact (t u : time.Time) :
  time.minDuration <= t - u <= time.maxDuration -> time.Sub t u = t - u.
Proof.
  intros [Hlo Hhi]. unfold time.Sub.
  destruct (Z.ltb_spec (t - u) time.minDuration); [lia|].
  destruct (Z.ltb_spec time.maxDuration (t - u)); [lia|reflexivity].
Qed.

Lemma Sub_range (t u : time.Time) : time.minDuration <= time.Sub t u <= time.maxDuration.
Proof.
  unfold time.Sub.
  destruct (Z.ltb_spec (t - u) time.minDuration).
  - unfold time.minDuration, time.maxDuration; lia.
  - destruct (Z.ltb_spec time.maxDuration (t - u)); [|lia].
    unfold time.minDuration, time.maxDuration; lia.
Qed.

Lemma Sub_le (t u : time.Time) : t <= u -> time.Sub t u <= 0.
Proof.
  intros H. unfold time.Sub.
  destruct (Z.ltb_spec (t - u) time.minDuration).
  - unfold time.minDuration; lia.
  - destruct (Z.ltb_spec time.maxDuration (t - u)); [|lia].
    unfold time.maxDuration in *; lia.
Qed.

Lemma Sub_pos (t u : time.Time) : u < t -> 0 < time.Sub t u.
Proof.
  intros H. unfold time.Sub.
  destruct (Z.ltb_spec (t - u) time.minDuration).
  - unfold time.minDuration in *; lia.
  - destruct (Z.ltb_spec time.maxDuration (t - u)); [|lia].
    unfold time.maxDuration; lia.
Qed.

Lemma Sub_le_diff (t u : time.Time) : u <= t -> time.Sub t u <= t - u.
Proof.
  intros H. unfold time.Sub.
  destruct (Z.ltb_spec (t - u) time.minDuration).
  - unfold time.minDuration in *; lia.
  - destruct (Z.ltb_spec time.maxDuration (t - u)); lia.
Qed.


(** ** Loading the settings and opening a session *)

Section PreferencesProperties.

Import preferences.

Variable SettingsFile : string.
Context {codec : Codec}.

Lemma DefaultWGKeysInterval_pos : 0 < DefaultWGKeysInterval.
Proof. reflexivity. Qed.

(** A load of current-format settings that succeeds: the text decoded, and
    the settings that result. *)
Lemma LoadPreferences_current (p p' : Preferences) (d d' : Disk) :
  currentFormat SettingsFile d ->
  LoadPreferences SettingsFile p d = (None, p', d') ->
  exists data q,
    content d SettingsFile = Some data
    /\ json_Unmarshal data p = (q, None)
    /\ p' = (if SessionStatus.WGKeysRegenInerval (Session (resetKeyGenerated q)) <=? 0
             then setSessionStatus
                    (SessionStatus.setWGKeysRegenInerval DefaultWGKeysInterval
                       (Session (resetKeyGenerated q)))
                    (resetKeyGenerated q)
             else resetKeyGenerated q).
Proof.
  intros (data & Hfile & Hnew) Hload.
  unfold LoadPreferences, ioutil_ReadFile in Hload.
  rewrite Hfile, Hnew in Hload.
  destruct (json_Unmarshal data p) as [q [e|]] eqn:Hq; [discriminate|].
  exists data, q. split; [assumption|]. split; [exact Hq|].
  destruct (SessionStatus.WGKeysRegenInerval (Session (resetKeyGenerated q)) <=? 0).
  - destruct (SavePreferences SettingsFile _ d) as [d1 e1]. congruence.
  - congruence.
Qed.

Lemma resetKeyGenerated_keys (q : Preferences) :
  SessionStatus.WGPublicKey (Session (resetKeyGenerated q))
    = SessionStatus.WGPublicKey (Session q)
  /\ SessionStatus.WGPrivateKey (Session (resetKeyGenerated q))
    = SessionStatus.WGPrivateKey (Session q)
  /\ SessionStatus.WGLocalIP (Session (resetKeyGenerated q))
    = SessionStatus.WGLocalIP (Session q)
  /\ SessionStatus.WGKeysRegenInerval (Session (resetKeyGenerated q))
    = SessionStatus.WGKeysRegenInerval (Session q).
Proof.
  unfold resetKeyGenerated.
  destruct (isEmpty _ || isEmpty _ || isEmpty _); simpl; auto.
Qed.

Lemma resetKeyGenerated_zero (q : Preferences) :
  SessionStatus.WGPublicKey (Session q) = EmptyString
  \/ SessionStatus.WGPrivateKey (Session q) = EmptyString
  \/ SessionStatus.WGLocalIP (Session q) = EmptyString ->
  SessionStatus.WGKeyGenerated (Session (resetKeyGenerated q)) = time.zero.
Proof.
  intros H. unfold resetKeyGenerated.
  assert (Hany : isEmpty (SessionStatus.WGPublicKey (Session q))
                 || isEmpty (SessionStatus.WGPrivateKey (Session q))
                 || isEmpty (SessionStatus.WGLocalIP (Session q)) = true).
  { destruct H as [H|[H|H]]; rewrite H; simpl;
      rewrite ?orb_true_r; reflexivity. }
  rewrite Hany. reflexivity.
Qed.

(** C9: after a load of current-format settings that succeeds, a session
    that lacks the public key, the private key or the local address has the
    zero generation time. *)
Theorem LoadPreferences_incomplete_keys_zero_time
    (p p' : Preferences) (d d' : Disk) :
  currentFormat SettingsFile d ->
  LoadPreferences SettingsFile p d = (None, p', d') ->
  SessionStatus.WGPublicKey (Session p') = EmptyString
  \/ SessionStatus.WGPrivateKey (Session p') = EmptyString
  \/ SessionStatus.WGLocalIP (Session p') = EmptyString ->
  SessionStatus.WGKeyGenerated (Session p') = time.zero.
Proof.
  intros Hfmt Hload Hkeys.
  destruct (LoadPreferences_current p p' d d' Hfmt Hload)
    as (data & q & _ & _ & Hp').
  destruct (resetKeyGenerated_keys q) as (Hpub & Hpriv & Hip & _).
  assert (Hq : SessionStatus.WGKeyGenerated (Session (resetKeyGenerated q))
               = time.zero).
  { apply resetKeyGenerated_zero.
    rewrite <- Hpub, <- Hpriv, <- Hip.
    destruct (SessionStatus.WGKeysRegenInerval (Session (resetKeyGenerated q)) <=? 0);
      subst p'; exact Hkeys. }
  destruct (SessionStatus.WGKeysRegenInerval (Session (resetKeyGenerated q)) <=? 0);
    subst p'; exact Hq.
Qed.

(** C10: after a load of current-format settings that succeeds, and after
    [setSession], the rotation interval is positive: a decoded or inherited
    interval that is not positive has been replaced by the default of seven
    days, and a positive one is kept.  [setSession] is taken with any
    [updateWgCredentials] that leaves the interval alone. *)
Theorem interval_positive_after_load_and_setSession :
  (forall (p p' : Preferences) (d d' : Disk),
     currentFormat SettingsFile d ->
     LoadPreferences SettingsFile p d = (None, p', d') ->
     0 < SessionStatus.WGKeysRegenInerval (Session p')
     /\ exists data q,
          content d SettingsFile = Some data
          /\ json_Unmarshal data p = (q, None)
          /\ SessionStatus.WGKeysRegenInerval (Session p')
             = if SessionStatus.WGKeysRegenInerval (Session q) <=? 0
               then 7 * (24 * time.Hour)
               else SessionStatus.WGKeysRegenInerval (Session q))
  /\
  (forall (updateWgCredentials :
             time.Time -> string -> string -> string ->
             SessionStatus.t -> SessionStatus.t),
     (forall now pub priv ip s,
        SessionStatus.WGKeysRegenInerval (updateWgCredentials now pub priv ip s)
        = SessionStatus.WGKeysRegenInerval s) ->
     forall now accountID session vpnUser vpnPass pub priv ip (p : Preferences),
       let p' := setSession updateWgCredentials now
                   accountID session vpnUser vpnPass pub priv ip p in
       0 < SessionStatus.WGKeysRegenInerval (Session p')
       /\ SessionStatus.WGKeysRegenInerval (Session p')
          = if SessionStatus.WGKeysRegenInerval (Session p) <=? 0
            then 7 * (24 * time.Hour)
            else SessionStatus.WGKeysRegenInerval (Session p)).
Proof.
  split.
  - intros p p' d d' Hfmt Hload.
    destruct (LoadPreferences_current p p' d d' Hfmt Hload)
      as (data & q & Hfile & Hq & Hp').
    destruct (resetKeyGenerated_keys q) as (_ & _ & _ & Hint).
    rewrite Hint in Hp'.
    assert (Heq : SessionStatus.WGKeysRegenInerval (Session p')
                  = if SessionStatus.WGKeysRegenInerval (Session q) <=? 0
                    then 7 * (24 * time.Hour)
                    else SessionStatus.WGKeysRegenInerval (Session q)).
    { destruct (Z.leb_spec (SessionStatus.WGKeysRegenInerval (Session q)) 0);
        subst p'; simpl; [reflexivity | exact Hint]. }
    split.
    + rewrite Heq.
      destruct (Z.leb_spec (SessionStatus.WGKeysRegenInerval (Session q)) 0);
        [reflexivity | assumption].
    + exists data, q. auto.
  - intros upd Hupd now accountID session vpnUser vpnPass pub priv ip p p'.
    assert (Heq : SessionStatus.WGKeysRegenInerval (Session p')
                  = if SessionStatus.WGKeysRegenInerval (Session p) <=? 0
                    then 7 * (24 * time.Hour)
                    else SessionStatus.WGKeysRegenInerval (Session p)).
    { subst p'. unfold setSession. simpl. rewrite Hupd.
      destruct (SessionStatus.WGKeysRegenInerval (Session p) <=? 0); reflexivity. }
    split; [|exact Heq].
    rewrite Heq.
    destruct (Z.leb_spec (SessionStatus.WGKeysRegenInerval (Session p)) 0);
      [reflexivity | assumption].
Qed.

End PreferencesProperties.

(** ** One call of the keys manager *)

Lemma since_app (l evs : list wgkeys.Event) : skipn (length l) (l ++ evs) = evs.
Proof. induction l; simpl; auto. Qed.

Lemma since_nil (l : list wgkeys.Event) : skipn (length l) l = [].
Proof. induction l; simpl; auto. Qed.

(** Run a call of the manager on a symbolic world. *)
Ltac run :=
  unfold wgkeys.UpdateKeysIfNecessary, wgkeys.GenerateKeys, wgkeys.generateKeys,
    wgkeys.isNecessaryUpdate, wgkeys.StartKeysRotation, wgkeys.StopKeysRotation,
    wgkeys.go_rotationLoop, wgkeys.service_WireGuardGetKeys,
    wgkeys.service_Connected, wgkeys.service_WireGuardSaveNewKeys,
    wgkeys.call_wireguard_GenerateKeys, wgkeys.call_api_WireGuardKeySet,
    wgkeys.time_Until, wgkeys.time_Now, wgkeys.emit, wgkeys.getManager,
    wgkeys.putManager, wgkeys.bind, wgkeys.ret, wgkeys.isError;
  simpl.

(** Split on the innermost test that the goal is stuck on. *)
Ltac branch :=
  match goal with
  | |- context [match ?x with _ => _ end] =>
      lazymatch x with
      | context [match _ with _ => _ end] => fail
      | _ => destruct x eqn:?
      end
  end.

(** Turn the tests on integers that [branch] recorded into facts. *)
Ltac tests :=
  repeat match goal with
  | H : (_ <? _) = true |- _ => apply Z.ltb_lt in H
  | H : (_ <? _) = false |- _ => apply Z.ltb_ge in H
  | H : (_ <=? _) = true |- _ => apply Z.leb_le in H
  | H : (_ <=? _) = false |- _ => apply Z.leb_gt in H
  end.

(** Bring the events added to a trace into the open. *)
Ltac events :=
  unfold wgkeys.since; simpl; rewrite <- ?app_assoc; simpl;
  rewrite ?since_app, ?since_nil; simpl.

(** The same, with [StartKeysRotation] left as it is. *)
Ltac run0 :=
  unfold wgkeys.UpdateKeysIfNecessary, wgkeys.GenerateKeys, wgkeys.generateKeys,
    wgkeys.isNecessaryUpdate, wgkeys.service_WireGuardGetKeys,
    wgkeys.service_Connected, wgkeys.service_WireGuardSaveNewKeys,
    wgkeys.call_wireguard_GenerateKeys, wgkeys.call_api_WireGuardKeySet,
    wgkeys.time_Until, wgkeys.time_Now, wgkeys.emit, wgkeys.getManager,
    wgkeys.putManager, wgkeys.bind, wgkeys.ret, wgkeys.isError;
  simpl.

Section ManagerProperties.

Import wgkeys.

Context {R : Type} {receiver : IWgKeysChangeReceiver R}.
Variable env : Env.

(** With an interval and a key, before the due time: the call reads the
    clock once and does nothing else. *)
Lemma UpdateKeysIfNecessary_not_due (w : @World R) :
  _service (manager w) = Some theService ->
  0 < updateInterval (WireGuardGetKeys (service w)) ->
  wgPublicKey (WireGuardGetKeys (service w)) <> EmptyString ->
  now env (reads w)
    < generatedTime (WireGuardGetKeys (service w))
      + updateInterval (WireGuardGetKeys (service w)) ->
  UpdateKeysIfNecessary env w
  = (None, mkWorld (manager w) (service w) (S (reads w)) (keygens w) (issues w)
                   (trace w)).
Proof.
  intros Hs Hi Hp Hn. run. rewrite Hs.
  destruct (Z.leb_spec (updateInterval (WireGuardGetKeys (service w))) 0); [lia|].
  destruct (wgPublicKey (WireGuardGetKeys (service w))) eqn:E; [congruence|].
  simpl. unfold time.After, time.Add.
  destruct (Z.ltb_spec (now env (reads w))
              (generatedTime (WireGuardGetKeys (service w))
               + updateInterval (WireGuardGetKeys (service w)))); [|lia].
  reflexivity.
Qed.

(** With an interval and a key, from the due time on: the call takes the
    lock and generates a key. *)
Lemma UpdateKeysIfNecessary_due (w : @World R) :
  _service (manager w) = Some theService ->
  0 < updateInterval (WireGuardGetKeys (service w)) ->
  wgPublicKey (WireGuardGetKeys (service w)) <> EmptyString ->
  now env (reads w) <= now env (S (reads w)) ->
  generatedTime (WireGuardGetKeys (service w))
    + updateInterval (WireGuardGetKeys (service w)) <= now env (reads w) ->
  exists rest,
    since w (snd (UpdateKeysIfNecessary env w))
    = EvLock :: EvGenerateKeys (_wgToolBinPath (manager w)) :: rest.
Proof.
  intros Hs Hi Hp Hmono Hn. run. rewrite Hs.
  unfold time.After, time.Add.
  destruct (wgPublicKey (WireGuardGetKeys (service w))) eqn:E; [congruence|].
  simpl.
  repeat (branch; simpl); tests; try lia; events; eexists; reflexivity.
Qed.

(** C1: with a positive interval and an active public key, and a clock that
    does not run backwards during the call, [UpdateKeysIfNecessary] returns no
    error without generating a key, calling the API or saving keys exactly
    when the time it reads is before [generatedTime + updateInterval]; it then
    does nothing at all.  From that instant on, the instant itself included,
    it takes the lock and generates a key. *)
Theorem UpdateKeysIfNecessary_noop_iff_before_due (w : @World R) :
  _service (manager w) = Some theService ->
  0 < updateInterval (WireGuardGetKeys (service w)) ->
  wgPublicKey (WireGuardGetKeys (service w)) <> EmptyString ->
  now env (reads w) <= now env (S (reads w)) ->
  let k := WireGuardGetKeys (service w) in
  let t := now env (reads w) in
  let err := fst (UpdateKeysIfNecessary env w) in
  let w' := snd (UpdateKeysIfNecessary env w) in
  ((err = None
    /\ filter isGenerateKeys (since w w') = []
    /\ filter isWireGuardKeySet (since w w') = []
    /\ filter isSaveNewKeys (since w w') = [])
   <-> t < generatedTime k + updateInterval k)
  /\ (t < generatedTime k + updateInterval k ->
      since w w' = [] /\ service w' = service w)
  /\ (generatedTime k + updateInterval k <= t ->
      exists rest,
        since w w' = EvLock :: EvGenerateKeys (_wgToolBinPath (manager w)) :: rest).
Proof.
  intros Hs Hi Hp Hmono k t err w'.
  assert (Hbefore : t < generatedTime k + updateInterval k ->
                    err = None /\ since w w' = [] /\ service w' = service w).
  { intros Hn. subst err w'.
    rewrite (UpdateKeysIfNecessary_not_due w Hs Hi Hp Hn). simpl.
    unfold since. simpl. rewrite since_nil. auto. }
  assert (Hfrom : generatedTime k + updateInterval k <= t ->
                  exists rest,
                    since w w'
                    = EvLock :: EvGenerateKeys (_wgToolBinPath (manager w)) :: rest).
  { intros Hn. exact (UpdateKeysIfNecessary_due w Hs Hi Hp Hmono Hn). }
  split; [split|split].
  - intros (_ & Hgen & _).
    destruct (Z.lt_ge_cases t (generatedTime k + updateInterval k)) as [Hlt|Hge];
      [exact Hlt|].
    destruct (Hfrom Hge) as [rest Hrest].
    rewrite Hrest in Hgen. discriminate.
  - intros Hn. destruct (Hbefore Hn) as (He & Hevs & _).
    rewrite Hevs. auto.
  - intros Hn. destruct (Hbefore Hn) as (_ & Hevs & Hsvc). auto.
  - exact Hfrom.
Qed.

(** C6: the due check of a forced call answers yes whatever the key, the
    generation time and the interval, and [GenerateKeys] on an initialized
    manager takes the lock and generates a key in every state. *)
Theorem GenerateKeys_always_attempts (w : @World R) :
  _service (manager w) = Some theService ->
  (forall activePublicKey lastUpdate interval (w0 : @World R),
     isNecessaryUpdate env false activePublicKey lastUpdate interval w0
     = ((true, None), w0))
  /\ exists rest,
       since w (snd (GenerateKeys env w))
       = EvLock :: EvGenerateKeys (_wgToolBinPath (manager w)) :: rest.
Proof.
  intros Hs. split; [reflexivity|].
  run. rewrite Hs. simpl.
  repeat (branch; simpl); events; eexists; reflexivity.
Qed.

(** Every call of [generateKeys] ends in one of the outcomes. *)
Lemma generateKeys_outcome (b : bool) (w : @World R) :
  Outcome env b w (fst (generateKeys env b w)) (snd (generateKeys env b w)).
Proof.
  run0.
  destruct (_service (manager w)) as [r|] eqn:Hs; simpl;
    [|apply NotInitialized; assumption].
  assert (Hb : _service (manager w) <> None) by congruence.
  unfold time.After, time.Add.
  destruct (wireguard_GenerateKeys env (keygens w) (_wgToolBinPath (manager w)))
    as [[pub priv] eg] eqn:Hgen.
  destruct (api_WireGuardKeySet env (issues w)
              (session (WireGuardGetKeys (service w))) pub
              (if Connected (service w)
               then wgPublicKey (WireGuardGetKeys (service w))
               else EmptyString)) as [ip ei] eqn:Hset.
  (* the part under the lock, from the call of the generator on, when the
     save reads the clock for the [r0]-th time *)
  assert (Hattempt : forall r0 : nat,
    (reads w <= r0 <= S (S (reads w)))%nat ->
    Due b (WireGuardGetKeys (service w))
      (now env (reads w)) (now env (S (reads w))) ->
    forall e' w',
      (e' = eg /\ eg <> None
       /\ w' = mkWorld (manager w) (service w) r0 (S (keygens w)) (issues w)
                 (trace w ++ [EvLock; EvGenerateKeys (_wgToolBinPath (manager w));
                              EvUnlock]))
      \/ (eg = None /\ e' = ei /\ ei <> None
          /\ w' = mkWorld (manager w) (service w) r0 (S (keygens w)) (S (issues w))
                    (trace w ++ [EvLock; EvGenerateKeys (_wgToolBinPath (manager w));
                                 EvWireGuardKeySet
                                   (session (WireGuardGetKeys (service w))) pub
                                   (if Connected (service w)
                                    then wgPublicKey (WireGuardGetKeys (service w))
                                    else EmptyString);
                                 EvUnlock]))
      \/ (eg = None /\ ei = None /\ e' = None
          /\ w' = snd (emit EvUnlock
                   (let w1 := saved env w
                      [EvLock; EvGenerateKeys (_wgToolBinPath (manager w));
                       EvWireGuardKeySet
                         (session (WireGuardGetKeys (service w))) pub
                         (if Connected (service w)
                          then wgPublicKey (WireGuardGetKeys (service w))
                          else EmptyString);
                       EvSaveNewKeys pub priv ip] r0 pub priv ip in
                    if isEmpty (wgPublicKey (WireGuardGetKeys (service w)))
                    then snd (StartKeysRotation w1) else w1))) ->
      Outcome env b w e' w').
  { intros r0 Hr0 Hdue e' w' [(He & Hg & Hw)|[(Hg & He & Hi & Hw)|(Hg & Hi & He & Hw)]];
      subst e'.
    - destruct eg as [e|]; [|congruence].
      eapply KeyGenFailed; eauto; subst w'; reflexivity.
    - subst eg. destruct ei as [e|]; [|congruence].
      eapply IssuanceFailed; eauto; subst w'; reflexivity.
    - subst eg ei. eapply Success with (r := r0); eauto. }
  assert (Hold : (if negb (Connected (service w)) then EmptyString
                  else wgPublicKey (WireGuardGetKeys (service w)))
                 = (if Connected (service w)
                    then wgPublicKey (WireGuardGetKeys (service w))
                    else EmptyString))
    by (destruct (Connected (service w)); reflexivity).
  destruct b; simpl.
  - destruct (updateInterval (WireGuardGetKeys (service w)) <=? 0) eqn:Hi; simpl.
    { apply IntervalUndefined; auto. apply Z.leb_le. assumption. }
    pose proof (proj1 (Z.leb_gt _ _) Hi) as Hi'.
    destruct (isEmpty (wgPublicKey (WireGuardGetKeys (service w)))) eqn:Hpk;
      simpl.
    + apply (Hattempt (reads w)); [lia| |].
      { right. split; [assumption|]. left. apply isEmpty_true. assumption. }
      rewrite ?Hi, ?Hpk; simpl. rewrite Hgen. destruct eg as [e|]; simpl.
      { left. rewrite <- !app_assoc. repeat split; congruence. }
      rewrite Hold, Hset. destruct ei as [e|]; simpl.
      { right; left. rewrite <- !app_assoc. repeat split; congruence. }
      right; right. rewrite <- !app_assoc. simpl. unfold saved.
      destruct (StartKeysRotation _) as [e1 w2] eqn:Hstart. auto.
    + pose proof (proj1 (isEmpty_false _) Hpk) as Hpk'.
      destruct (now env (reads w) <?
                generatedTime (WireGuardGetKeys (service w))
                + updateInterval (WireGuardGetKeys (service w))) eqn:H1; simpl.
      { apply Z.ltb_lt in H1. apply NotDue; simpl; auto. }
      rewrite ?Hi, ?Hpk; simpl.
      destruct (now env (S (reads w)) <?
                generatedTime (WireGuardGetKeys (service w))
                + updateInterval (WireGuardGetKeys (service w))) eqn:H2; simpl.
      { apply Z.ltb_lt in H2. apply Z.ltb_ge in H1.
        apply NotDue; simpl; auto.
        right. rewrite <- app_assoc. simpl. auto. }
      apply Z.ltb_ge in H1, H2.
      apply (Hattempt (S (S (reads w)))); [lia| |].
      { right. split; [assumption|]. right. auto. }
      rewrite Hgen. destruct eg as [e|]; simpl.
      { left. rewrite <- !app_assoc. repeat split; congruence. }
      rewrite Hold, Hset. destruct ei as [e|]; simpl.
      { right; left. rewrite <- !app_assoc. repeat split; congruence. }
      right; right. rewrite <- !app_assoc. simpl. unfold saved. auto.
  - apply (Hattempt (reads w)); [lia| |].
    { left. reflexivity. }
    rewrite Hgen. destruct eg as [e|]; simpl.
    { left. rewrite <- !app_assoc. repeat split; congruence. }
    rewrite Hold, Hset. destruct ei as [e|]; simpl.
    { right; left. rewrite <- !app_assoc. repeat split; congruence. }
    right; right. rewrite <- !app_assoc. simpl. unfold saved.
    destruct (isEmpty (wgPublicKey (WireGuardGetKeys (service w)))).
    { destruct (StartKeysRotation _) as [e1 w2] eqn:Hstart. auto. }
    auto.
Qed.

(** What [StartKeysRotation] does: it leaves the receiver alone, and adds to
    the trace a stop signal and, with an interval and a key, the start of the
    goroutine. *)
Lemma StartKeysRotation_effect (w : @World R) :
  let w' := snd (StartKeysRotation w) in
  service w' = service w
  /\ _service (manager w') = _service (manager w)
  /\ exists sevs,
       trace w' = trace w ++ sevs
       /\ ((sevs = [] /\ _service (manager w) = None)
           \/ (exists rcv, sevs = [EvStop rcv]
                           /\ (updateInterval (WireGuardGetKeys (service w)) <= 0
                               \/ wgPublicKey (WireGuardGetKeys (service w))
                                  = EmptyString))
           \/ (exists rcv, sevs = [EvStop rcv; EvGo]
                           /\ 0 < updateInterval (WireGuardGetKeys (service w))
                           /\ wgPublicKey (WireGuardGetKeys (service w))
                              <> EmptyString
                           /\ _service (manager w) <> None)).
Proof.
  run.
  destruct (_service (manager w)) eqn:Hs; simpl.
  2:{ repeat split; auto. exists []. rewrite app_nil_r. auto. }
  destruct (_stopKeysRotation (manager w)) as [|n]; simpl;
    (destruct (Z.leb_spec (updateInterval (WireGuardGetKeys (service w))) 0);
     simpl;
     [|destruct (isEmpty (wgPublicKey (WireGuardGetKeys (service w)))) eqn:Hpk;
       simpl;
       [apply isEmpty_true in Hpk | apply isEmpty_false in Hpk]]);
    rewrite <- ?app_assoc; simpl;
    (split; [reflexivity|]); (split; [simpl; congruence|]);
    eexists; (split; [reflexivity|]);
    first [ solve [right; left; eexists; split; [reflexivity|auto]]
          | solve [right; right; eexists; repeat split; auto; discriminate] ].
Qed.

(** The events of a call that goes through, and the receiver it leaves. *)
Lemma Success_effect (w w1 w2 w' : @World R) (evs : list Event) (r : nat)
    (pub priv : string) (ip : IP) :
  _service (manager w) <> None ->
  w1 = saved env w evs r pub priv ip ->
  w2 = (if isEmpty (wgPublicKey (WireGuardGetKeys (service w)))
        then snd (StartKeysRotation w1)
        else w1) ->
  w' = snd (emit EvUnlock w2) ->
  service w' = WireGuardSaveNewKeys (now env r) pub priv ip (service w)
  /\ exists sevs,
       since w w' = evs ++ sevs ++ [EvUnlock]
       /\ (sevs = []
           \/ (exists rcv, sevs = [EvStop rcv])
           \/ (exists rcv,
                 sevs = [EvStop rcv; EvGo]
                 /\ wgPublicKey (WireGuardGetKeys (service w)) = EmptyString))
       /\ (wgPublicKey (WireGuardGetKeys (service w)) <> EmptyString -> sevs = [])
       /\ (wgPublicKey (WireGuardGetKeys (service w)) = EmptyString ->
           0 < updateInterval (WireGuardGetKeys (service w')) ->
           wgPublicKey (WireGuardGetKeys (service w')) <> EmptyString ->
           exists rcv, sevs = [EvStop rcv; EvGo]).
Proof.
  intros Hb Hw1 Hw2 Hw'.
  destruct (isEmpty (wgPublicKey (WireGuardGetKeys (service w)))) eqn:Hpk.
  - apply isEmpty_true in Hpk.
    destruct (StartKeysRotation_effect w1) as (Hsvc & Hbound & sevs & Htr & Hshape).
    assert (Hsvc' : service w' = service w1).
    { subst w2 w'. unfold emit; simpl. exact Hsvc. }
    rewrite Hsvc'.
    split; [subst w1; reflexivity|].
    exists sevs. unfold since. subst w2 w'. unfold emit; simpl. rewrite Htr.
    subst w1; simpl in *.
    rewrite <- !app_assoc, since_app.
    split; [reflexivity|]. split; [|split].
    + destruct Hshape as [(H & _)|[(rcv & H & _)|(rcv & H & _)]]; eauto 8.
    + congruence.
    + intros _ Hi Hp.
      destruct Hshape as [(_ & H)|[(rcv & H & [Hi'|Hp'])|(rcv & H & _)]];
        try lia; try congruence; eauto.
  - apply isEmpty_false in Hpk. subst w2 w' w1. unfold emit; simpl.
    split; [reflexivity|]. exists []. unfold since; simpl.
    rewrite <- !app_assoc, since_app. simpl.
    repeat split; auto; congruence.
Qed.

(** The four ways a call of [generateKeys] can go, by the events it adds:
    nothing but the lock; a generator that fails; an API that fails; a save. *)
Lemma generateKeys_events (b : bool) (w : @World R) :
  let err := fst (generateKeys env b w) in
  let w' := snd (generateKeys env b w) in
  let k := WireGuardGetKeys (service w) in
  let path := _wgToolBinPath (manager w) in
  let old := if Connected (service w) then wgPublicKey k else EmptyString in
  ((since w w' = [] \/ since w w' = [EvLock; EvUnlock])
   /\ service w' = service w
   /\ (err = None ->
       b = true /\ 0 < updateInterval k /\ wgPublicKey k <> EmptyString
       /\ (now env (reads w) < generatedTime k + updateInterval k
           \/ now env (S (reads w)) < generatedTime k + updateInterval k)))
  \/ (exists pub priv e,
        wireguard_GenerateKeys env (keygens w) path = (pub, priv, Some e)
        /\ err = Some e
        /\ since w w' = [EvLock; EvGenerateKeys path; EvUnlock]
        /\ service w' = service w)
  \/ (exists pub priv ip e,
        wireguard_GenerateKeys env (keygens w) path = (pub, priv, None)
        /\ api_WireGuardKeySet env (issues w) (session k) pub old = (ip, Some e)
        /\ err = Some e
        /\ since w w' = [EvLock; EvGenerateKeys path;
                         EvWireGuardKeySet (session k) pub old; EvUnlock]
        /\ service w' = service w)
  \/ (exists pub priv ip r sevs,
        wireguard_GenerateKeys env (keygens w) path = (pub, priv, None)
        /\ api_WireGuardKeySet env (issues w) (session k) pub old = (ip, None)
        /\ err = None
        /\ since w w' = [EvLock; EvGenerateKeys path;
                         EvWireGuardKeySet (session k) pub old;
                         EvSaveNewKeys pub priv ip] ++ sevs ++ [EvUnlock]
        /\ service w' = WireGuardSaveNewKeys (now env r) pub priv ip (service w)
        /\ (sevs = []
            \/ (exists rcv, sevs = [EvStop rcv])
            \/ (exists rcv, sevs = [EvStop rcv; EvGo] /\ wgPublicKey k = EmptyString))
        /\ (wgPublicKey k <> EmptyString -> sevs = [])
        /\ (wgPublicKey k = EmptyString ->
            0 < updateInterval (WireGuardGetKeys (service w')) ->
            wgPublicKey (WireGuardGetKeys (service w')) <> EmptyString ->
            exists rcv, sevs = [EvStop rcv; EvGo])).
Proof.
  intros err w' k path old. subst err w'.
  destruct (generateKeys_outcome b w)
    as [Hn | Hb Ht Hi | w' Hb Ht Hi Hp Hm Hsvc Hg Hiss Hcase
        | pub priv e w' Hb Hdue Hgen Hm Hsvc Hg Hiss Htr
        | pub priv old' ip e w' Hb Hdue Hgen Hold Hset Hm Hsvc Hg Hiss Htr
        | pub priv old' ip r w1 w2 w' Hb Hdue Hgen Hold Hset Hr Hw1 Hw2 Hw'].
  - left. unfold since. rewrite since_nil.
    repeat split; auto; discriminate.
  - left. unfold since. rewrite since_nil.
    repeat split; auto; discriminate.
  - left. unfold since.
    destruct Hcase as [(Hlt & _ & Htr)|((Hlt & _) & _ & Htr)]; rewrite Htr;
      rewrite ?since_nil, ?since_app; repeat split; auto.
  - right; left. exists pub, priv, e. unfold since. rewrite Htr, since_app. auto.
  - right; right; left. subst old'. exists pub, priv, ip, e.
    unfold since. rewrite Htr, since_app. auto.
  - right; right; right. subst old'.
    destruct (Success_effect w w1 w2 w' _ r pub priv ip Hb Hw1 Hw2 Hw')
      as (Hsvc & sevs & Hsince & Hshape & Hnone & Hgo).
    exists pub, priv, ip, r, sevs. repeat split; auto.
Qed.

(** Take apart a hypothesis that an event is in a list written out. *)
Ltac in_events :=
  simpl in *;
  repeat match goal with
  | H : _ \/ _ |- _ => destruct H
  | H : False |- _ => destruct H
  | H : In _ (_ ++ _) |- _ => apply in_app_or in H
  | H : exists _, _ |- _ => destruct H
  | H : _ /\ _ |- _ => destruct H
  | H : _ = _ :> Event |- _ => inversion H; clear H; subst
  | H : In _ [] |- _ => destruct H
  | H : In _ (_ :: _) |- _ => simpl in H
  end.


(** C5: in every call of [generateKeys] that reaches the API, the old key
    handed to [WireGuardKeySet] is empty when [Connected] answers no, whatever
    the active public key, and is the active public key when it answers yes;
    the session is the one of the receiver, the new key the one generated, and
    the API is called once. *)
Theorem WireGuardKeySet_old_key_by_connection
    (onlyUpdateIfNecessary : bool) (w : @World R)
    (s pub old : string) :
  let k := WireGuardGetKeys (service w) in
  let w' := snd (generateKeys env onlyUpdateIfNecessary w) in
  In (EvWireGuardKeySet s pub old) (since w w') ->
  (Connected (service w) = false -> old = EmptyString)
  /\ (Connected (service w) = true -> old = wgPublicKey k)
  /\ s = session k
  /\ pub = fst (fst (wireguard_GenerateKeys env (keygens w)
                       (_wgToolBinPath (manager w))))
  /\ filter isWireGuardKeySet (since w w') = [EvWireGuardKeySet s pub old].
Proof.
  cbv zeta.
  pose proof (generateKeys_events onlyUpdateIfNecessary w) as H.
  cbv zeta in H.
  destruct H
    as [(Hq & _)
       |[(pub' & priv & e & Hgen & He & Hsince & Hsvc)
        |[(pub' & priv & ip & e & Hgen & Hset & He & Hsince & Hsvc)
         |(pub' & priv & ip & r & sevs & Hgen & Hset & He & Hsince & Hsvc
             & Hshape & _)]]].
  - destruct Hq as [Hq|Hq]; rewrite Hq; intros Hin; in_events.
  - rewrite Hsince. intros Hin. in_events.
  - rewrite Hsince, Hgen. intros Hin. in_events.
    destruct (Connected (service w)); repeat split; congruence.
  - rewrite Hsince, Hgen.
    assert (Hsets : filter isWireGuardKeySet (sevs ++ [EvUnlock]) = []
                    /\ ~ In (EvWireGuardKeySet s pub old) (sevs ++ [EvUnlock])).
    { destruct Hshape as [H|[(rcv & H)|(rcv & H & _)]]; subst sevs;
        (split; [reflexivity|intros H; in_events]). }
    destruct Hsets as [Hf Hnin].
    simpl. rewrite Hf.
    intros [Hin|[Hin|[Hin|[Hin|Hin]]]];
      try discriminate; [|contradiction].
    inversion Hin; subst.
    destruct (Connected (service w)); repeat split; congruence.
Qed.

(** C7: with a positive interval and no active public key,
    [StartKeysRotation] returns no error and starts no goroutine, and leaves
    the receiver and the manager's binding as they are.  A [GenerateKeys] that
    then returns no error, on a receiver that hands out the key it was given
    and with a generator whose public key is not empty, starts the goroutine
    once and leaves a public key that is not empty.  No call of
    [generateKeys] that finds a public key starts a goroutine. *)
Theorem rotation_loop_started_by_first_key {keeps : KeepsKeys R} :
  (forall w : @World R,
     _service (manager w) = Some theService ->
     0 < updateInterval (WireGuardGetKeys (service w)) ->
     wgPublicKey (WireGuardGetKeys (service w)) = EmptyString ->
     let w' := snd (StartKeysRotation w) in
     fst (StartKeysRotation w) = None
     /\ filter isGo (since w w') = []
     /\ (_stopKeysRotation (manager w') <= _stopKeysRotation (manager w))%nat
     /\ service w' = service w
     /\ _service (manager w') = Some theService)
  /\
  (forall w : @World R,
     _service (manager w) = Some theService ->
     0 < updateInterval (WireGuardGetKeys (service w)) ->
     wgPublicKey (WireGuardGetKeys (service w)) = EmptyString ->
     fst (fst (wireguard_GenerateKeys env (keygens w) (_wgToolBinPath (manager w))))
       <> EmptyString ->
     fst (GenerateKeys env w) = None ->
     let w' := snd (GenerateKeys env w) in
     filter isGo (since w w') = [EvGo]
     /\ wgPublicKey (WireGuardGetKeys (service w')) <> EmptyString)
  /\
  (forall (onlyUpdateIfNecessary : bool) (w : @World R),
     wgPublicKey (WireGuardGetKeys (service w)) <> EmptyString ->
     filter isGo (since w (snd (generateKeys env onlyUpdateIfNecessary w))) = []).
Proof.
  split; [|split].
  - intros w Hs Hi Hp. cbv zeta. run. rewrite Hs. simpl.
    assert (Hi' : (updateInterval (WireGuardGetKeys (service w)) <=? 0) = false)
      by (apply Z.leb_gt; assumption).
    assert (Hpk : isEmpty (wgPublicKey (WireGuardGetKeys (service w))) = true)
      by (apply isEmpty_true; assumption).
    destruct (_stopKeysRotation (manager w)) eqn:Hn; simpl; rewrite Hi', Hpk;
      simpl; events; repeat split; auto; rewrite ?Hn; lia.
  - intros w Hs Hi Hp Hpub Herr. cbv zeta. unfold GenerateKeys in *.
    pose proof (generateKeys_events false w) as H. cbv zeta in H.
    destruct H
      as [(_ & _ & Hq)
         |[(pub & priv & e & Hgen & He & _)
          |[(pub & priv & ip & e & Hgen & Hset & He & _)
           |(pub & priv & ip & r & sevs & Hgen & Hset & He & Hsince & Hsvc
               & Hshape & _ & Hgo)]]];
      try congruence.
    { destruct (Hq Herr) as (Hb & _). discriminate. }
    rewrite Hgen in Hpub. simpl in Hpub.
    rewrite Hsvc in Hgo |- *.
    rewrite saved_wgPublicKey in Hgo |- *.
    rewrite saved_updateInterval in Hgo.
    destruct (Hgo Hp Hi Hpub) as [rcv Hsevs].
    rewrite Hsince. subst sevs. simpl. auto.
  - intros b w Hp.
    pose proof (generateKeys_events b w) as H. cbv zeta in H.
    destruct H
      as [(Hq & _)
         |[(pub & priv & e & _ & _ & Hsince & _)
          |[(pub & priv & ip & e & _ & _ & _ & Hsince & _)
           |(pub & priv & ip & r & sevs & _ & _ & _ & Hsince & _
               & _ & Hnone & _)]]].
    + destruct Hq as [Hq|Hq]; rewrite Hq; reflexivity.
    + rewrite Hsince. reflexivity.
    + rewrite Hsince. reflexivity.
    + rewrite Hsince, (Hnone Hp). reflexivity.
Qed.

(** With a positive interval, neither the due check nor the start of the
    rotation complains that the interval is not defined. *)
Lemma isNecessaryUpdate_interval_defined (b : bool) (activePublicKey : string)
    (lastUpdate : time.Time) (interval : time.Duration) (w : @World R) :
  0 < interval ->
  snd (fst (isNecessaryUpdate env b activePublicKey lastUpdate interval w)) = None.
Proof.
  intros Hi. unfold isNecessaryUpdate, bind, ret, time_Now.
  destruct b; simpl; [|reflexivity].
  destruct (Z.leb_spec interval 0); [lia|].
  destruct (isEmpty activePublicKey); simpl; [reflexivity|].
  destruct (time.After _ _); reflexivity.
Qed.

Lemma StartKeysRotation_interval_defined (w : @World R) :
  _service (manager w) <> None ->
  0 < updateInterval (WireGuardGetKeys (service w)) ->
  fst (StartKeysRotation w) = None.
Proof.
  intros Hb Hi. run.
  destruct (_service (manager w)); [|congruence]. simpl.
  assert (Hi' : (updateInterval (WireGuardGetKeys (service w)) <=? 0) = false)
    by (apply Z.leb_gt; assumption).
  destruct (_stopKeysRotation (manager w)); simpl; rewrite Hi';
    destruct (isEmpty (wgPublicKey (WireGuardGetKeys (service w))));
    reflexivity.
Qed.

(** *** The rotation loop *)

(** The wait computed when the last update did not fail: what is left until
    [generatedTime + updateInterval] at the first reading of the clock, or one
    second when [generatedTime] plus that wait is before the second reading. *)
Lemma waitInterval_not_failed (w : @World R) :
  let k := WireGuardGetKeys (service w) in
  let d := time.Sub (generatedTime k + updateInterval k) (now env (reads w)) in
  waitInterval env false w
  = (if generatedTime k + d <? now env (S (reads w)) then time.Second else d,
     mkWorld (manager w) (service w) (S (S (reads w))) (keygens w) (issues w)
             (trace w)).
Proof.
  cbv zeta. unfold waitInterval. run. unfold time.Before, time.Add.
  destruct (_ <? _); reflexivity.
Qed.

(** The wait computed when the last update failed: one hour, or one second
    when more than an hour went by between two readings of the clock. *)
Lemma waitInterval_failed (w : @World R) :
  waitInterval env true w
  = (if now env (S (reads w)) + time.Hour <? now env (S (S (reads w)))
     then time.Second else time.Hour,
     mkWorld (manager w) (service w) (S (S (S (reads w)))) (keygens w) (issues w)
             (trace w)).
Proof.
  unfold waitInterval. run. unfold time.Before, time.Add.
  destruct (_ <? _); reflexivity.
Qed.

(** Computing the wait reads the clock and nothing else. *)
Lemma waitInterval_frame (f : bool) (w : @World R) :
  let w' := snd (waitInterval env f w) in
  manager w' = manager w /\ service w' = service w /\ trace w' = trace w
  /\ keygens w' = keygens w /\ issues w' = issues w.
Proof.
  destruct f; [rewrite waitInterval_failed | rewrite waitInterval_not_failed];
    simpl; auto.
Qed.

(** A wait that has run out is replaced by one second. *)
Lemma waitInterval_elapsed (w : @World R) :
  let k := WireGuardGetKeys (service w) in
  0 < updateInterval k ->
  now env (reads w) <= now env (S (reads w)) ->
  time.Sub (generatedTime k + updateInterval k) (now env (reads w)) <= 0 ->
  fst (waitInterval env false w) = time.Second.
Proof.
  cbv zeta. intros Hi Hmono Hd. rewrite waitInterval_not_failed. simpl.
  assert (Hdue : generatedTime (WireGuardGetKeys (service w))
                 + updateInterval (WireGuardGetKeys (service w))
                 <= now env (reads w)).
  { destruct (Z.le_gt_cases
                (generatedTime (WireGuardGetKeys (service w))
                 + updateInterval (WireGuardGetKeys (service w)))
                (now env (reads w))) as [H|H]; [exact H|].
    apply Sub_pos in H. lia. }
  match goal with |- (if ?c then _ else _) = _ => destruct c eqn:Hc end;
    [reflexivity|].
  apply Z.ltb_ge in Hc. lia.
Qed.

(** With one reading [t] of the clock for the whole computation and a
    difference that fits a [Duration], the wait is one second as soon as more
    than half of the interval has gone by. *)
Lemma waitInterval_half_interval (w : @World R) (t : time.Time) :
  let k := WireGuardGetKeys (service w) in
  now env (reads w) = t ->
  now env (S (reads w)) = t ->
  time.minDuration <= generatedTime k + updateInterval k - t <= time.maxDuration ->
  2 * generatedTime k + updateInterval k < 2 * t ->
  fst (waitInterval env false w) = time.Second.
Proof.
  cbv zeta. intros H1 H2 Hfit Hhalf. rewrite waitInterval_not_failed. simpl.
  rewrite H1, H2, (Sub_exact _ _ Hfit).
  match goal with |- (if ?c then _ else _) = _ => destruct c eqn:Hc end;
    [reflexivity|].
  apply Z.ltb_ge in Hc. lia.
Qed.

(** Under the same conditions, the wait is what is left of the interval
    as long as no more than half of it has gone by. *)
Lemma waitInterval_first_half (w : @World R) (t : time.Time) :
  let k := WireGuardGetKeys (service w) in
  now env (reads w) = t ->
  now env (S (reads w)) = t ->
  time.minDuration <= generatedTime k + updateInterval k - t <= time.maxDuration ->
  2 * t <= 2 * generatedTime k + updateInterval k ->
  fst (waitInterval env false w) = generatedTime k + updateInterval k - t.
Proof.
  cbv zeta. intros H1 H2 Hfit Hhalf. rewrite waitInterval_not_failed. simpl.
  rewrite H1, H2, (Sub_exact _ _ Hfit).
  match goal with |- (if ?c then _ else _) = _ => destruct c eqn:Hc end;
    [|reflexivity].
  apply Z.ltb_lt in Hc. lia.
Qed.


(** A call of [generateKeys] only adds to the trace. *)
Lemma generateKeys_extends (b : bool) (w : @World R) :
  exists evs, trace (snd (generateKeys env b w)) = trace w ++ evs.
Proof.
  destruct (generateKeys_outcome b w)
    as [Hn | Hb Ht Hi | w' Hb Ht Hi Hp Hm Hsvc Hg Hiss Hcase
        | pub priv e w' Hb Hdue Hgen Hm Hsvc Hg Hiss Htr
        | pub priv old' ip e w' Hb Hdue Hgen Hold Hset Hm Hsvc Hg Hiss Htr
        | pub priv old' ip r w1 w2 w' Hb Hdue Hgen Hold Hset Hr Hw1 Hw2 Hw'].
  - exists []. rewrite app_nil_r. reflexivity.
  - exists []. rewrite app_nil_r. reflexivity.
  - destruct Hcase as [(_ & _ & Htr)|(_ & _ & Htr)]; rewrite Htr.
    + exists []. rewrite app_nil_r. reflexivity.
    + eexists; reflexivity.
  - rewrite Htr. eexists; reflexivity.
  - rewrite Htr. eexists; reflexivity.
  - subst w'. unfold emit; simpl.
    destruct (isEmpty (wgPublicKey (WireGuardGetKeys (service w)))).
    + destruct (StartKeysRotation_effect w1) as (_ & _ & sevs & Htr & _).
      subst w2. rewrite Htr. subst w1. simpl.
      rewrite <- !app_assoc. eexists; reflexivity.
    + subst w2 w1. simpl. rewrite <- !app_assoc. eexists; reflexivity.
Qed.



End ManagerProperties.

(** ** Several goroutines in [generateKeys] *)

(** Run the goroutine as far as the facts at hand allow. *)
Ltac go :=
  cbn [rotation.alone rotation.statement rotation.goto rotation.set
       rotation.goroutines rotation._service rotation.service rotation._mutex
       rotation.clock rotation.next rotation.pc rotation.onlyUpdateIfNecessary
       Nat.eqb negb orb wgkeys.isError fst snd].

Section GoroutinesProperties.

Import wgkeys.
Import rotation.

Context {R : Type} {receiver : IWgKeysChangeReceiver R}.

Lemma set_same (i : nat) (g : Goroutine) (gs : nat -> option Goroutine) :
  set i g gs i = Some g.
Proof. unfold set. rewrite Nat.eqb_refl. reflexivity. Qed.

Lemma set_other (i j : nat) (g : Goroutine) (gs : nat -> option Goroutine) :
  j <> i -> set i g gs j = gs j.
Proof.
  intros H. unfold set. destruct (Nat.eqb_spec j i); [contradiction|reflexivity].
Qed.

Lemma Invariant_idle (bound : option Ref) (r : R) (t : time.Time) :
  Invariant (idle bound r t).
Proof.
  unfold Invariant, idle, inside. simpl. repeat split.
  - intros (g & H & _). discriminate.
  - discriminate.
  - discriminate.
  - discriminate.
Qed.

(** A statement of goroutine [i] that takes it from [p] to [p'] keeps the
    invariant when it stays on its side of the lock, takes the free lock, or
    gives the lock back, changes the receiver only from inside, and leaves
    [i] with the keys of the receiver if with any. *)
Lemma Invariant_statement (s : @State R) (i : nat) (b : bool) (p p' : PC)
    (svc : R) (mu : option nat) :
  Invariant s ->
  goroutines s i = Some (mkGoroutine b p) ->
  (locked p = locked p' /\ mu = _mutex s)
  \/ (locked p = false /\ locked p' = true /\ _mutex s = None /\ mu = Some i)
  \/ (locked p = true /\ locked p' = false /\ mu = None) ->
  svc = service s \/ locked p = true ->
  (forall k, keysOf p' = Some k -> k = WireGuardGetKeys svc) ->
  Invariant (mkState (_service s) svc mu (clock s)
                     (set i (mkGoroutine b p') (goroutines s)) (next s)).
Proof.
  intros (Hin & Hnext & Hkeys) Hi Hside Hsvc Hk'.
  assert (Hi_in : locked p = true -> _mutex s = Some i).
  { intros Hl. apply Hin. exists (mkGoroutine b p). auto. }
  assert (Hin_i : _mutex s = Some i -> locked p = true).
  { intros Hm. apply Hin in Hm. destruct Hm as (g & Hg & Hl).
    rewrite Hi in Hg. inversion Hg; subst. exact Hl. }
  unfold Invariant, inside. simpl. split; [|split].
  - intros j. destruct (Nat.eq_dec j i) as [->|Hne].
    + rewrite set_same. split.
      * intros (g & Hg & Hl). inversion Hg; subst; simpl in Hl.
        destruct Hside as [(Hs & Hm)|[(_ & _ & _ & Hm)|(_ & Hs & _)]].
        -- subst mu. apply Hi_in. congruence.
        -- exact Hm.
        -- congruence.
      * intros Hm. exists (mkGoroutine b p'). split; [reflexivity|]. simpl.
        destruct Hside as [(Hs & Hm')|[(_ & Hs & _)|(_ & _ & Hm')]].
        -- subst mu. rewrite <- Hs. auto.
        -- exact Hs.
        -- congruence.
    + rewrite (set_other i j _ _ Hne). split.
      * intros Hj. apply Hin in Hj.
        destruct Hside as [(_ & Hm)|[(_ & _ & Hm & _)|(Hs & _ & _)]].
        -- congruence.
        -- congruence.
        -- apply Hi_in in Hs. congruence.
      * intros Hm.
        destruct Hside as [(_ & Hm')|[(_ & _ & _ & Hm')|(_ & _ & Hm')]].
        -- subst mu. apply Hin. exact Hm.
        -- congruence.
        -- congruence.
  - intros j g Hg. destruct (Nat.eq_dec j i) as [->|Hne].
    + eapply Hnext. eassumption.
    + rewrite (set_other i j _ _ Hne) in Hg. eapply Hnext. eassumption.
  - intros j g k Hg Hk. destruct (Nat.eq_dec j i) as [->|Hne].
    + rewrite set_same in Hg. inversion Hg; subst. simpl in Hk. auto.
    + rewrite (set_other i j _ _ Hne) in Hg.
      assert (Hj : inside s j).
      { exists g. split; [exact Hg|]. destruct (pc g); simpl in *; congruence. }
      apply Hin in Hj.
      destruct Hsvc as [->|Hl].
      * eapply Hkeys; eassumption.
      * apply Hi_in in Hl. congruence.
Qed.

Lemma Invariant_move (m : Move) (s s' : @State R) :
  Invariant s -> move m s = Some s' -> Invariant s'.
Proof.
  intros Hinv Hmove. destruct m as [b|d|i a]; simpl in Hmove.
  - inversion Hmove; subst; clear Hmove.
    destruct Hinv as (Hin & Hnext & Hkeys).
    assert (Hfresh : goroutines s (next s) = None).
    { destruct (goroutines s (next s)) eqn:Hg; [|reflexivity].
      apply Hnext in Hg. lia. }
    unfold Invariant, inside. simpl. split; [|split].
    + intros j. destruct (Nat.eq_dec j (next s)) as [->|Hne].
      * rewrite set_same. split.
        -- intros (g & Hg & Hl). inversion Hg; subst. discriminate.
        -- intros Hm. apply Hin in Hm. destruct Hm as (g & Hg & _). congruence.
      * rewrite (set_other _ _ _ _ Hne). apply Hin.
    + intros j g Hg. destruct (Nat.eq_dec j (next s)) as [->|Hne]; [lia|].
      rewrite (set_other _ _ _ _ Hne) in Hg. apply Hnext in Hg. lia.
    + intros j g k Hg Hk. destruct (Nat.eq_dec j (next s)) as [->|Hne].
      * rewrite set_same in Hg. inversion Hg; subst. discriminate.
      * rewrite (set_other _ _ _ _ Hne) in Hg. eapply Hkeys; eassumption.
  - destruct (d <? 0); [discriminate|]. inversion Hmove; subst. exact Hinv.
  - unfold statement in Hmove.
    destruct (goroutines s i) as [[b p]|] eqn:Hi; [|discriminate].
    pose proof (Invariant_statement s i b p) as Hstep.
    destruct p; simpl in Hmove;
      repeat match type of Hmove with
      | match ?x with _ => _ end = _ => destruct x eqn:?
      | (if ?x then _ else _) = _ => destruct x eqn:?
      | (let (_, _) := ?x in _) = _ => destruct x eqn:?
      end;
      try discriminate; inversion Hmove; subst; clear Hmove;
      unfold goto;
      apply Hstep; auto 8; simpl; try discriminate; auto;
      intros k' Hk'; inversion Hk'; subst; auto;
      destruct Hinv as (_ & _ & Hkeys);
      (eapply Hkeys; [eassumption|reflexivity]).
Qed.

Lemma Invariant_moves (ms : list Move) (s s' : @State R) :
  Invariant s -> moves ms s = Some s' -> Invariant s'.
Proof.
  revert s. induction ms as [|m ms IH]; simpl; intros s Hinv Hrun.
  - inversion Hrun; subst. exact Hinv.
  - destruct (move m s) as [s1|] eqn:Hm; [|discriminate].
    eapply IH; [|eassumption]. eapply Invariant_move; eassumption.
Qed.

Lemma isNecessaryUpdate_Due (b : bool) (k : Keys) (t : time.Time) :
  Due b k t t -> isNecessaryUpdate b k t = (true, None).
Proof.
  unfold Due, isNecessaryUpdate, time.After, time.Add.
  intros [->|(Hi & [Hp|(Hd & _)])]; [reflexivity| |];
    destruct b; simpl; try reflexivity;
    (destruct (Z.leb_spec (updateInterval k) 0); [lia|]).
  - rewrite Hp. reflexivity.
  - destruct (isEmpty (wgPublicKey k)); simpl; [reflexivity|].
    destruct (Z.ltb_spec t (generatedTime k + updateInterval k));
      [lia|reflexivity].
Qed.

Lemma isNecessaryUpdate_before (k : Keys) (t : time.Time) :
  0 < updateInterval k -> wgPublicKey k <> EmptyString ->
  t < generatedTime k + updateInterval k ->
  isNecessaryUpdate true k t = (false, None).
Proof.
  intros Hi Hp Ht. unfold isNecessaryUpdate, time.After, time.Add. simpl.
  destruct (Z.leb_spec (updateInterval k) 0); [lia|].
  destruct (wgPublicKey k); [congruence|]. simpl.
  destruct (Z.ltb_spec t (generatedTime k + updateInterval k));
    [reflexivity|lia].
Qed.

Lemma isNecessaryUpdate_undefined (k : Keys) (t : time.Time) :
  updateInterval k <= 0 ->
  isNecessaryUpdate true k t
  = (false,
     Some "unable to 'GenerateOrUpdateKeys' (update interval is not defined)"%string).
Proof.
  intros Hi. unfold isNecessaryUpdate. simpl.
  destruct (Z.leb_spec (updateInterval k) 0); [reflexivity|lia].
Qed.

(** X25: the two embeddings of [generateKeys] agree: a goroutine that runs alone,
    while the clock stands at [t] and with the answers that the calls of the
    other embedding get, returns the same error and leaves the same
    receiver, with the lock free. *)
Lemma single_generateKeys (env : Env) (b : bool) (a : Answer)
    (w : @World R) (t : time.Time) :
  (forall n, now env n = t) ->
  wireguard_GenerateKeys env (keygens w) (wgkeys._wgToolBinPath (manager w))
    = generated a ->
  (forall ses pub old,
     api_WireGuardKeySet env (issues w) ses pub old = assigned a) ->
  let s := single b a (wgkeys._service (manager w)) (wgkeys.service w) t in
  goroutines s 0%nat
    = Some (mkGoroutine b (pcReturn (fst (generateKeys env b w))))
  /\ service s = wgkeys.service (snd (generateKeys env b w))
  /\ _mutex s = None.
Proof.
  intros Hnow Hgen Hset. cbv zeta.
  unfold single, move, idle. go.
  assert (Hold : (if negb (Connected (wgkeys.service w)) then EmptyString
                  else wgPublicKey (WireGuardGetKeys (wgkeys.service w)))
                 = (if Connected (wgkeys.service w)
                    then wgPublicKey (WireGuardGetKeys (wgkeys.service w))
                    else EmptyString))
    by (destruct (Connected (wgkeys.service w)); reflexivity).
  destruct (generateKeys_outcome env b w)
    as [Hn | Hb Ht Hi | w' Hb Ht Hi Hp Hm Hsvc Hg Hiss Hcase
        | pub priv e w' Hb Hdue Hgen' Hm Hsvc Hg Hiss Htr
        | pub priv old' ip e w' Hb Hdue Hgen' Hold' Hset' Hm Hsvc Hg Hiss Htr
        | pub priv old' ip r w1 w2 w' Hb Hdue Hgen' Hold' Hset' Hr Hw1 Hw2 Hw'].
  - rewrite Hn. go. auto.
  - destruct (wgkeys._service (manager w)); [|congruence]. subst b. go.
    rewrite (isNecessaryUpdate_undefined _ _ Hi). go. auto.
  - destruct (wgkeys._service (manager w)); [|congruence]. subst b. go.
    destruct Hcase as [(Hlt & _)|((Hlt & Hge) & _)];
      rewrite !Hnow in *; [|lia].
    rewrite (isNecessaryUpdate_before _ _ Hi Hp Hlt). go. auto.
  - destruct (wgkeys._service (manager w)); [|congruence]. go.
    rewrite !Hnow in Hdue.
    rewrite (isNecessaryUpdate_Due _ _ _ Hdue). go.
    rewrite (isNecessaryUpdate_Due _ _ _ Hdue). go.
    rewrite <- Hgen, Hgen'. go. auto.
  - destruct (wgkeys._service (manager w)); [|congruence]. go.
    rewrite !Hnow in Hdue.
    rewrite (isNecessaryUpdate_Due _ _ _ Hdue). go.
    rewrite (isNecessaryUpdate_Due _ _ _ Hdue). go.
    rewrite <- Hgen, Hgen'. go.
    rewrite <- (Hset (session (WireGuardGetKeys (wgkeys.service w))) pub old'),
      Hset'. go. auto.
  - destruct (Success_effect env w w1 w2 w' _ r pub priv ip Hb Hw1 Hw2 Hw')
      as (Hsvc' & _).
    destruct (wgkeys._service (manager w)); [|congruence]. go.
    rewrite !Hnow in Hdue.
    rewrite (isNecessaryUpdate_Due _ _ _ Hdue). go.
    rewrite (isNecessaryUpdate_Due _ _ _ Hdue). go.
    rewrite <- Hgen, Hgen'. go.
    rewrite <- (Hset (session (WireGuardGetKeys (wgkeys.service w))) pub old'),
      Hset'. go.
    rewrite Hsvc', Hnow. auto.
Qed.

(** C8: in every state that calls of [GenerateKeys] and
    [UpdateKeysIfNecessary], made at any time and run in any order, can
    reach, at most one goroutine is past [Lock] and not past [Unlock], and a
    goroutine at [Lock] cannot move while another one is there.  A call of
    [UpdateKeysIfNecessary] that has got the lock decides on the keys the
    receiver has then: with an interval, a key, and a clock before
    [generatedTime + updateInterval], it goes to [Unlock] with no error and
    leaves the receiver alone; so a call of [UpdateKeysIfNecessary] that
    waited at [Lock] and finds the lock free and such keys returns with no
    error, the receiver untouched.  The goroutine that saves leaves, on a
    receiver that hands out what it was given, the new key with the time of
    the save and the interval of before. *)
Theorem one_goroutine_inside_and_recheck {keeps : KeepsKeys R}
    (bound : option Ref) (r : R) (t : time.Time) (ms : list Move)
    (s : @State R) :
  moves ms (idle bound r t) = Some s ->
  (forall i j, inside s i -> inside s j -> i = j)
  /\ (forall i j b a,
        at_pc s i b pcLock -> inside s j -> statement i a s = None)
  /\ (forall i k,
        at_pc s i true (pcRecheck k) ->
        k = WireGuardGetKeys (service s)
        /\ (0 < updateInterval k ->
            wgPublicKey k <> EmptyString ->
            clock s < generatedTime k + updateInterval k ->
            forall a, exists s',
              statement i a s = Some s'
              /\ at_pc s' i true (pcUnlock None)
              /\ service s' = service s))
  /\ (forall i a,
        at_pc s i true pcLock ->
        _mutex s = None ->
        0 < updateInterval (WireGuardGetKeys (service s)) ->
        wgPublicKey (WireGuardGetKeys (service s)) <> EmptyString ->
        clock s < generatedTime (WireGuardGetKeys (service s))
                  + updateInterval (WireGuardGetKeys (service s)) ->
        at_pc (alone 4 i a s) i true (pcReturn None)
        /\ service (alone 4 i a s) = service s
        /\ _mutex (alone 4 i a s) = None)
  /\ (forall i b k pub priv ip a s',
        at_pc s i b (pcSaveNewKeys k pub priv ip) ->
        statement i a s = Some s' ->
        wgPublicKey (WireGuardGetKeys (service s')) = pub
        /\ generatedTime (WireGuardGetKeys (service s')) = clock s
        /\ updateInterval (WireGuardGetKeys (service s'))
           = updateInterval (WireGuardGetKeys (service s))).
Proof.
  intros Hrun.
  pose proof (Invariant_moves ms _ s (Invariant_idle bound r t) Hrun)
    as (Hin & Hnext & Hkeys).
  split; [|split; [|split; [|split]]].
  - intros i j Hi Hj. apply Hin in Hi, Hj. congruence.
  - intros i j b a Hi Hj. apply Hin in Hj.
    unfold statement. rewrite Hi, Hj. reflexivity.
  - intros i k Hi.
    split; [eapply Hkeys; [exact Hi|reflexivity]|].
    intros Hint Hpub Hclock a. unfold statement. rewrite Hi.
    unfold isNecessaryUpdate. simpl.
    destruct (Z.leb_spec (updateInterval k) 0); [lia|].
    destruct (wgPublicKey k) eqn:Hk; [congruence|]. simpl.
    unfold time.After, time.Add.
    destruct (Z.ltb_spec (clock s) (generatedTime k + updateInterval k)); [|lia].
    simpl. eexists. split; [reflexivity|]. split; [|reflexivity].
    unfold at_pc, goto. simpl. apply set_same.
  - intros i a Hi Hfree Hint Hpub Hclock. unfold at_pc in *.
    pose (s1 := mkState (_service s) (service s) (Some i) (clock s)
                  (rotation.set i (mkGoroutine true pcRead) (goroutines s))
                  (next s)).
    pose (s2 := goto i true (pcRecheck (WireGuardGetKeys (service s))) s1).
    pose (s3 := goto i true (pcUnlock None) s2).
    pose (s4 := mkState (_service s) (service s) None (clock s)
                  (rotation.set i (mkGoroutine true (pcReturn None))
                     (goroutines s3))
                  (next s)).
    assert (H1 : statement i a s = Some s1)
      by (unfold statement; rewrite Hi, Hfree; reflexivity).
    assert (H2 : statement i a s1 = Some s2)
      by (unfold statement, s1; cbn [goroutines]; rewrite set_same; reflexivity).
    assert (H3 : statement i a s2 = Some s3).
    { unfold statement, s2, s1, goto. cbn [goroutines clock].
      rewrite set_same, (isNecessaryUpdate_before _ _ Hint Hpub Hclock).
      reflexivity. }
    assert (H4 : statement i a s3 = Some s4)
      by (unfold statement, s3, s2, s1, goto; cbn [goroutines];
          rewrite set_same; reflexivity).
    cbn [alone]. rewrite H1, H2, H3, H4.
    unfold s4. cbn [goroutines service _mutex]. rewrite set_same. auto.
  - intros i b k pub priv ip a s' Hi Hst.
    unfold statement in Hst. rewrite Hi in Hst. inversion Hst; subst; simpl.
    rewrite saved_wgPublicKey, saved_generatedTime, saved_updateInterval. auto.
Qed.

End GoroutinesProperties.

(** ** The daemon of [example] *)

Section Scenarios.

Import wgkeys.
Import example.

(** The receiver of the daemon hands out what it was given to save. *)
#[export] Instance service_KeepsKeys : KeepsKeys service.Service.
Proof.
  split; intros t pub priv ip s; unfold WireGuardSaveNewKeys, WireGuardGetKeys;
    simpl; unfold service.WireGuardSaveNewKeys, service.WireGuardGetKeys,
             preferences.UpdateWgCredentials; simpl; reflexivity.
Qed.

(** C2: a key generated four days ago with an interval of seven days has
    three days left, and the loop, whose last update did not fail, waits one
    second: it has replaced the wait although the wait has not run out. *)
Theorem waitInterval_one_second_with_three_days_left :
  let w := world (service0 true) in
  let e := env (t2020 + 4 * day) false false in
  let k := WireGuardGetKeys (service w) in
  generatedTime k + updateInterval k - now e (reads w) = 3 * day
  /\ 0 < 3 * day
  /\ fst (waitInterval e false w) = time.Second
  /\ filter isAfter (since w (snd (iteration e TimerFired false w)))
     = [EvAfter time.Second]
  /\ fst (UpdateKeysIfNecessary e w) = None
  /\ since w (snd (UpdateKeysIfNecessary e w)) = [].
Proof. vm_compute. repeat split; reflexivity. Qed.

(** Scenario B of the spec: a key of eight days and an interval of seven. *)
Example UpdateKeysIfNecessary_eight_days :
  let w := world (service0 true) in
  let e := env (t2020 + 8 * day) false false in
  fst (UpdateKeysIfNecessary e w) = None
  /\ since w (snd (UpdateKeysIfNecessary e w))
     = [EvLock; EvGenerateKeys "/usr/bin/wg";
        EvWireGuardKeySet "token" "pubNew" "pubOld";
        EvSaveNewKeys "pubNew" "privNew" "172.16.0.9"%string; EvUnlock]
  /\ generatedTime (WireGuardGetKeys (service (snd (UpdateKeysIfNecessary e w))))
     = t2020 + 8 * day.
Proof. vm_compute. repeat split; reflexivity. Qed.

Lemma UpdateKeysIfNecessary_noop_iff_before_due_witness :
  let w := world (service0 true) in
  let e := env (t2020 + time.Hour) false false in
  since w (snd (UpdateKeysIfNecessary e w)) = []
  /\ service (snd (UpdateKeysIfNecessary e w)) = service w.
Proof.
  intros w e.
  refine (proj1 (proj2 (UpdateKeysIfNecessary_noop_iff_before_due e w _ _ _ _)) _).
  - reflexivity.
  - reflexivity.
  - discriminate.
  - vm_compute. discriminate.
  - reflexivity.
Defined.

Lemma GenerateKeys_always_attempts_witness :
  let w := world (service0 true) in
  let e := env (t2020 + time.Hour) false false in
  exists rest,
    since w (snd (GenerateKeys e w)) = EvLock :: EvGenerateKeys "/usr/bin/wg" :: rest.
Proof.
  intros w e.
  exact (proj2 (GenerateKeys_always_attempts e w eq_refl)).
Defined.


Lemma WireGuardKeySet_old_key_by_connection_witness :
  let w := world (service0 false) in
  let e := env (t2020 + 8 * day) false false in
  wgPublicKey (WireGuardGetKeys (service w)) = "pubOld"%string
  /\ Connected (service w) = false
  /\ filter isWireGuardKeySet (since w (snd (generateKeys e true w)))
     = [EvWireGuardKeySet "token" "pubNew" EmptyString].
Proof.
  intros w e. split; [reflexivity|]. split; [reflexivity|].
  refine (proj2 (proj2 (proj2 (proj2
            (WireGuardKeySet_old_key_by_connection e true w
               "token" "pubNew" EmptyString _))))).
  vm_compute. right; right; left. reflexivity.
Defined.

Lemma rotation_loop_started_by_first_key_witness :
  let w := world serviceNoKey in
  let e := env (t2020 + time.Hour) false false in
  filter isGo (since w (snd (GenerateKeys e w))) = [EvGo]
  /\ wgPublicKey (WireGuardGetKeys (service (snd (GenerateKeys e w)))) <> EmptyString.
Proof.
  intros w e.
  refine (proj1 (proj2 (rotation_loop_started_by_first_key e)) w _ _ _ _ _).
  - reflexivity.
  - reflexivity.
  - reflexivity.
  - vm_compute. discriminate.
  - reflexivity.
Defined.


Lemma LoadPreferences_incomplete_keys_zero_time_witness :
  let r := preferences.LoadPreferences settingsFile prefs0 (diskWith "stale") in
  preferences.SessionStatus.WGKeyGenerated (preferences.Session (snd (fst r)))
  = time.zero.
Proof.
  intros r.
  refine (LoadPreferences_incomplete_keys_zero_time settingsFile
            prefs0 (snd (fst r)) (diskWith "stale") (snd r) _ _ _).
  - exists "stale"%string. split; reflexivity.
  - reflexivity.
  - right; left. reflexivity.
Defined.

Lemma interval_positive_after_load_and_setSession_witness :
  let r := preferences.LoadPreferences settingsFile prefs0 (diskWith "stale") in
  0 < preferences.SessionStatus.WGKeysRegenInerval
        (preferences.Session (snd (fst r)))
  /\ 0 < preferences.SessionStatus.WGKeysRegenInerval
           (preferences.Session
              (preferences.setSession
                 preferences.SessionStatus.updateWgCredentials t2020
                 " i-ABCD-1234 "%string "token"%string "user"%string "pass"%string
                 EmptyString EmptyString EmptyString prefsStale)).
Proof.
  intros r. split.
  - refine (proj1 (proj1 (interval_positive_after_load_and_setSession settingsFile)
                     prefs0 (snd (fst r)) (diskWith "stale") (snd r) _ _)).
    + exists "stale"%string. split; reflexivity.
    + reflexivity.
  - refine (proj1 (proj2 (interval_positive_after_load_and_setSession settingsFile)
                     preferences.SessionStatus.updateWgCredentials _
                     t2020 " i-ABCD-1234 "%string "token"%string "user"%string "pass"%string
                     EmptyString EmptyString EmptyString prefsStale)).
    intros; reflexivity.
Defined.

(** Two calls of [UpdateKeysIfNecessary] on a key of eight days: both find
    the update necessary, the first rotates while the second cannot take the
    lock, and the second, once it has the lock, returns with no error and
    leaves the receiver as the first left it. *)
Example second_call_is_not_due :
  let s1 := after (bothDue ++ [rotation.Run 0 answer; rotation.Run 0 answer;
                               rotation.Run 0 answer]) in
  let s2 := after (bothDue ++ firstRotates ++ secondReads
                     ++ [rotation.Run 1 answer; rotation.Run 1 answer]) in
  rotation._mutex s1 = Some 0%nat
  /\ rotation.statement 1 answer s1 = None
  /\ rotation.goroutines s2 0%nat
     = Some (rotation.mkGoroutine true (rotation.pcReturn None))
  /\ rotation.goroutines s2 1%nat
     = Some (rotation.mkGoroutine true (rotation.pcReturn None))
  /\ rotation.service s2
     = rotation.service (after (bothDue ++ firstRotates))
  /\ wgPublicKey (WireGuardGetKeys (rotation.service s2)) = "pubNew"%string.
Proof. vm_compute. repeat split; reflexivity. Qed.

Lemma one_goroutine_inside_and_recheck_witness :
  let s := after (bothDue ++ firstRotates ++ secondReads) in
  exists s',
    rotation.statement 1 answer s = Some s'
    /\ rotation.at_pc s' 1 true (rotation.pcUnlock None)
    /\ rotation.service s' = rotation.service s.
Proof.
  intros s.
  refine (proj2 (proj1 (proj2 (proj2
            (one_goroutine_inside_and_recheck
               (Some theService) (service0 true) (t2020 + 8 * day)
               (bothDue ++ firstRotates ++ secondReads) s _)))
            1%nat (WireGuardGetKeys (rotation.service s)) _)
            _ _ _ answer).
  - vm_compute. reflexivity.
  - vm_compute. reflexivity.
  - vm_compute. reflexivity.
  - vm_compute. discriminate.
  - vm_compute. reflexivity.
Defined.

End Scenarios.
(** ** The entry points of the keys manager *)

Section EntryPoints.

Import wgkeys.

Context {R : Type} {receiver : IWgKeysChangeReceiver R}.
Variable env : Env.

(** X1: [Init] binds the receiver when it is given one and the manager has
    none, and only then; it changes nothing else, a failed [Init] changes
    nothing at all, and after an [Init] that went through every other [Init]
    fails and leaves the binding. *)
Theorem Init_binds_once (r : option Ref) (w : @World R) :
  let err := fst (Init r w) in
  let w' := snd (Init r w) in
  (err = None <-> r <> None /\ _service (manager w) = None)
  /\ (err = None -> _service (manager w') = r)
  /\ (err <> None -> w' = w)
  /\ _wgToolBinPath (manager w') = _wgToolBinPath (manager w)
  /\ _stopKeysRotation (manager w') = _stopKeysRotation (manager w)
  /\ service w' = service w /\ trace w' = trace w /\ reads w' = reads w
  /\ (err = None ->
      forall r2, fst (Init r2 w') <> None /\ snd (Init r2 w') = w').
Proof.
  unfold Init, bind, getManager, putManager, ret. simpl.
  destruct w as [m s rd kg iss tr]. simpl.
  destruct r as [r|]; destruct (_service m) as [r0|] eqn:Hs; simpl.
  - split; [split; [discriminate|intros [_ H]; discriminate]|].
    repeat (split; [auto; discriminate|]). discriminate.
  - split; [split; [intros _; split; [discriminate|reflexivity]|reflexivity]|].
    split; [reflexivity|]. split; [congruence|].
    repeat (split; [reflexivity|]).
    intros _ r2. destruct r2; simpl; split; [discriminate|reflexivity|discriminate|reflexivity].
  - split; [split; [discriminate|intros [H _]; congruence]|].
    repeat (split; [auto; discriminate|]). discriminate.
  - split; [split; [discriminate|intros [H _]; congruence]|].
    split; [discriminate|]. split; [intros _; destruct m; simpl in *; congruence|].
    repeat (split; [reflexivity|]). discriminate.
Qed.

(** X2: on a manager that [Init] has not bound, [StartKeysRotation],
    [GenerateKeys] and [UpdateKeysIfNecessary] return an error and do nothing:
    no stop signal, no lock, no reading of the clock. *)
Theorem unbound_manager_refuses (b : bool) (w : @World R) :
  _service (manager w) = None ->
  fst (StartKeysRotation w) <> None /\ snd (StartKeysRotation w) = w
  /\ fst (generateKeys env b w) <> None /\ snd (generateKeys env b w) = w.
Proof.
  intros Hs. run. rewrite Hs. simpl.
  repeat split; discriminate.
Qed.

(** What [StopKeysRotation] leaves. *)
Lemma StopKeysRotation_world (w : @World R) :
  snd (StopKeysRotation w)
  = mkWorld (mkKeysManager (_service (manager w)) (_wgToolBinPath (manager w))
               (Nat.pred (_stopKeysRotation (manager w))))
      (service w) (reads w) (keygens w) (issues w)
      (trace w ++ [EvStop (negb (Nat.eqb (_stopKeysRotation (manager w)) 0))]).
Proof.
  run. destruct w as [[sv path n] s rd kg iss tr]. simpl.
  destruct n; reflexivity.
Qed.

(** X5: [StopKeysRotation] takes one goroutine out of its [select] when one
    waits there and does nothing otherwise; called [k] times in a row it stops
    [k] goroutines at most.  It changes nothing else. *)
Theorem StopKeysRotation_stops_one_at_most (k : nat) (w : @World R) :
  let stop := fun w0 : @World R => snd (StopKeysRotation w0) in
  _stopKeysRotation (manager (stop w)) = Nat.pred (_stopKeysRotation (manager w))
  /\ since w (stop w)
     = [EvStop (negb (Nat.eqb (_stopKeysRotation (manager w)) 0))]
  /\ _stopKeysRotation (manager (Nat.iter k stop w))
     = (_stopKeysRotation (manager w) - k)%nat
  /\ _service (manager (Nat.iter k stop w)) = _service (manager w)
  /\ service (Nat.iter k stop w) = service w.
Proof.
  cbv beta zeta. rewrite StopKeysRotation_world. simpl.
  split; [reflexivity|]. split; [unfold since; simpl; apply since_app|].
  induction k as [|k IH]; [simpl; repeat split; lia|].
  - rewrite Nat.iter_succ, StopKeysRotation_world. simpl.
    destruct IH as (Hn & Hs & Hsvc). rewrite Hn. repeat split; auto. lia.
Qed.

(** What [StartKeysRotation] leaves on a bound manager. *)
Lemma StartKeysRotation_world (w : @World R) :
  _service (manager w) <> None ->
  let n := _stopKeysRotation (manager w) in
  let k := WireGuardGetKeys (service w) in
  let starts := negb (updateInterval k <=? 0) && negb (isEmpty (wgPublicKey k)) in
  StartKeysRotation w
  = (if updateInterval k <=? 0
     then Some "unable to start WG keys rotation (update interval not defined)"%string
     else None,
     mkWorld (mkKeysManager (_service (manager w)) (_wgToolBinPath (manager w))
                (if starts then S (Nat.pred n) else Nat.pred n))
       (service w) (reads w) (keygens w) (issues w)
       (trace w ++ EvStop (negb (Nat.eqb n 0))
                   :: (if starts then [EvGo] else []))).
Proof.
  intros Hb. cbv zeta. run.
  destruct w as [[sv path n] s rd kg iss tr]. simpl in *.
  destruct sv; [|congruence].
  destruct n; simpl;
    destruct (updateInterval (WireGuardGetKeys s) <=? 0); simpl;
    try reflexivity;
    destruct (isEmpty (wgPublicKey (WireGuardGetKeys s))); simpl;
    rewrite <- ?app_assoc; reflexivity.
Qed.

(** X3: [StartKeysRotation] on a receiver whose interval is not positive
    returns an error and starts no goroutine, but has sent the stop signal
    first: a goroutine that waited in its [select] is stopped. *)
Theorem StartKeysRotation_undefined_interval_stops (w : @World R) :
  _service (manager w) <> None ->
  updateInterval (WireGuardGetKeys (service w)) <= 0 ->
  let w' := snd (StartKeysRotation w) in
  fst (StartKeysRotation w) <> None
  /\ since w w' = [EvStop (negb (Nat.eqb (_stopKeysRotation (manager w)) 0))]
  /\ _stopKeysRotation (manager w') = Nat.pred (_stopKeysRotation (manager w))
  /\ service w' = service w.
Proof.
  intros Hb Hi. cbv zeta. rewrite (StartKeysRotation_world w Hb).
  destruct (Z.leb_spec (updateInterval (WireGuardGetKeys (service w))) 0);
    [|lia].
  simpl. unfold since. simpl. rewrite since_app.
  repeat split. discriminate.
Qed.



(** X6: [UpdateKeysIfNecessary] on a receiver whose interval is not positive
    returns an error and does nothing, key or no key: the interval is checked
    before the key, and before the clock is read. *)
Theorem UpdateKeysIfNecessary_undefined_interval (w : @World R) :
  _service (manager w) <> None ->
  updateInterval (WireGuardGetKeys (service w)) <= 0 ->
  fst (UpdateKeysIfNecessary env w) <> None
  /\ snd (UpdateKeysIfNecessary env w) = w.
Proof.
  intros Hb Hi. run.
  destruct (_service (manager w)); [|congruence]. simpl.
  destruct (Z.leb_spec (updateInterval (WireGuardGetKeys (service w))) 0);
    [|lia].
  simpl. split; [discriminate|reflexivity].
Qed.

(** X7: with an interval and no public key, [UpdateKeysIfNecessary] does what
    [GenerateKeys] does, whatever the clock and the generation time. *)
Theorem UpdateKeysIfNecessary_without_key (w : @World R) :
  0 < updateInterval (WireGuardGetKeys (service w)) ->
  wgPublicKey (WireGuardGetKeys (service w)) = EmptyString ->
  UpdateKeysIfNecessary env w = GenerateKeys env w.
Proof.
  intros Hi Hp. unfold UpdateKeysIfNecessary, GenerateKeys, generateKeys,
    isNecessaryUpdate, bind, ret, getManager, service_WireGuardGetKeys, emit.
  simpl. destruct (_service (manager w)); [|reflexivity]. simpl.
  assert (Hi' : (updateInterval (WireGuardGetKeys (service w)) <=? 0) = false)
    by (apply Z.leb_gt; assumption).
  repeat (first [rewrite Hp | rewrite Hi']; simpl).
  reflexivity.
Qed.

(** X8: whatever way a call of [generateKeys] returns, the lock it took is
    given back: the events it adds are none, or start with [Lock], end with
    [Unlock] and have no other [Lock] or [Unlock] in between. *)
Theorem generateKeys_gives_the_lock_back (b : bool) (w : @World R) :
  let evs := since w (snd (generateKeys env b w)) in
  evs = []
  \/ exists mid, evs = EvLock :: mid ++ [EvUnlock]
                 /\ filter isLockOrUnlock mid = [].
Proof.
  cbv zeta.
  pose proof (generateKeys_events env b w) as H. cbv zeta in H.
  destruct H
    as [([Hq|Hq] & _)
       |[(pub & priv & e & _ & _ & Hsince & _)
        |[(pub & priv & ip & e & _ & _ & _ & Hsince & _)
         |(pub & priv & ip & r & sevs & _ & _ & _ & Hsince & _ & Hshape & _)]]].
  - left. exact Hq.
  - right. exists []. rewrite Hq. split; reflexivity.
  - right. rewrite Hsince. eexists [_]. split; reflexivity.
  - right. rewrite Hsince. eexists [_; _]. split; reflexivity.
  - right. rewrite Hsince. eexists (_ :: _ :: _ :: sevs). split; [reflexivity|].
    destruct Hshape as [->|[(rcv & ->)|(rcv & -> & _)]]; reflexivity.
Qed.

(** X10: on a bound manager, [GenerateKeys] returns no error exactly when the
    key generator and the API, asked with the session of the receiver, the new
    public key and the old key that goes with the connection, both answer
    without one. *)
Theorem GenerateKeys_succeeds_iff (w : @World R) :
  _service (manager w) <> None ->
  let k := WireGuardGetKeys (service w) in
  let old := if Connected (service w) then wgPublicKey k else EmptyString in
  let gen := wireguard_GenerateKeys env (keygens w) (_wgToolBinPath (manager w)) in
  fst (GenerateKeys env w) = None
  <-> snd gen = None
      /\ snd (api_WireGuardKeySet env (issues w) (session k) (fst (fst gen)) old)
         = None.
Proof.
  intros Hb. cbv zeta. unfold GenerateKeys.
  destruct (generateKeys_outcome env false w)
    as [Hn | Hb' Ht Hi | w' Hb' Ht Hi Hp Hm Hsvc Hg Hiss Hcase
        | pub priv e w' Hb' Hdue Hgen Hm Hsvc Hg Hiss Htr
        | pub priv old' ip e w' Hb' Hdue Hgen Hold Hset Hm Hsvc Hg Hiss Htr
        | pub priv old' ip r w1 w2 w' Hb' Hdue Hgen Hold Hset Hr Hw1 Hw2 Hw'];
    try congruence; try discriminate.
  - rewrite Hgen. simpl. split; [discriminate|intros [H _]; discriminate].
  - rewrite Hgen. simpl. subst old'. rewrite Hset. simpl.
    split; [discriminate|intros [_ H]; discriminate].
  - rewrite Hgen. simpl. subst old'. rewrite Hset. simpl.
    split; auto.
Qed.

End EntryPoints.

Section AfterRotation.

Import wgkeys.

Context {R : Type} {receiver : IWgKeysChangeReceiver R} {keeps : KeepsKeys R}.
Variable env : Env.

(** X9: after a call of [generateKeys] that saved a key that is not empty, on
    a receiver that hands out what it was given and has an interval, the
    generation time is the time of the save, and an [UpdateKeysIfNecessary]
    that reads the clock before that time plus the interval does nothing. *)
Theorem UpdateKeysIfNecessary_after_rotation (b : bool) (w : @World R) :
  _service (manager w) <> None ->
  0 < updateInterval (WireGuardGetKeys (service w)) ->
  fst (generateKeys env b w) = None ->
  filter isSaveNewKeys (since w (snd (generateKeys env b w))) <> [] ->
  fst (fst (wireguard_GenerateKeys env (keygens w) (_wgToolBinPath (manager w))))
    <> EmptyString ->
  let w' := snd (generateKeys env b w) in
  now env (reads w')
    < now env (Nat.pred (reads w'))
      + updateInterval (WireGuardGetKeys (service w)) ->
  generatedTime (WireGuardGetKeys (service w')) = now env (Nat.pred (reads w'))
  /\ UpdateKeysIfNecessary env w'
     = (None, mkWorld (manager w') (service w') (S (reads w')) (keygens w')
                      (issues w') (trace w')).
Proof.
  intros Hb Hi Herr Hsaved Hpub. cbv zeta.
  destruct (generateKeys_outcome env b w)
    as [Hn | Hb' Ht Hi' | w' Hb' Ht Hi' Hp Hm Hsvc Hg Hiss Hcase
        | pub priv e w' Hb' Hdue Hgen Hm Hsvc Hg Hiss Htr
        | pub priv old' ip e w' Hb' Hdue Hgen Hold Hset Hm Hsvc Hg Hiss Htr
        | pub priv old' ip r w1 w2 w' Hb' Hdue Hgen Hold Hset Hr Hw1 Hw2 Hw'];
    try discriminate.
  - exfalso. apply Hsaved. unfold since.
    destruct Hcase as [(_ & _ & Htr)|(_ & _ & Htr)]; rewrite Htr;
      rewrite ?since_nil, ?since_app; reflexivity.
  - rewrite Hgen in Hpub. simpl in Hpub.
    assert (Hw2' : manager w2 = manager w2 /\ service w2 = service w1
                   /\ reads w2 = reads w1 /\ _service (manager w2) <> None).
    { destruct (isEmpty (wgPublicKey (WireGuardGetKeys (service w)))).
      - assert (Hb1 : _service (manager w1) <> None) by (subst w1; exact Hb).
        subst w2. rewrite (StartKeysRotation_world w1 Hb1). simpl. auto.
      - subst w2 w1. simpl. auto. }
    destruct Hw2' as (_ & Hs2 & Hr2 & Hb2).
    assert (Hsvc : service w' = WireGuardSaveNewKeys (now env r) pub priv ip (service w)).
    { subst w'. unfold emit; simpl. rewrite Hs2. subst w1. reflexivity. }
    assert (Hreads : reads w' = S r).
    { subst w'. unfold emit; simpl. rewrite Hr2. subst w1. reflexivity. }
    assert (Hbound : _service (manager w') = Some theService).
    { subst w'. unfold emit; simpl. destruct (_service (manager w2)) as [[]|];
        congruence. }
    rewrite Hreads, Hsvc. simpl. intros Hclock.
    rewrite saved_generatedTime. split; [reflexivity|].
    rewrite <- Hsvc, <- Hreads.
    apply UpdateKeysIfNecessary_not_due; auto;
      rewrite Hsvc, ?saved_updateInterval, ?saved_wgPublicKey,
        ?saved_generatedTime, ?Hreads; auto.
Qed.

End AfterRotation.

(** ** The rotation loop, iteration after iteration *)

Section Loop.

Import wgkeys.

Context {R : Type} {receiver : IWgKeysChangeReceiver R}.
Variable env : Env.

(** A call of [generateKeys] hands no wait to a timer. *)
Lemma generateKeys_no_wait (b : bool) (w : @World R) :
  exists evs,
    trace (snd (generateKeys env b w)) = trace w ++ evs
    /\ filter isAfter evs = [].
Proof.
  destruct (generateKeys_extends env b w) as [evs Hevs].
  exists evs. split; [exact Hevs|].
  pose proof (generateKeys_events env b w) as H. cbv zeta in H.
  unfold since in H. rewrite Hevs, since_app in H.
  destruct H
    as [([Hq|Hq] & _)
       |[(pub & priv & e & _ & _ & Hsince & _)
        |[(pub & priv & ip & e & _ & _ & _ & Hsince & _)
         |(pub & priv & ip & r & sevs & _ & _ & _ & Hsince & _ & Hshape & _)]]];
    try (rewrite Hq; reflexivity); rewrite Hsince; try reflexivity.
  destruct Hshape as [->|[(rcv & ->)|(rcv & -> & _)]]; reflexivity.
Qed.

(** An iteration hands one wait to a timer, whichever case of the [select]
    comes; the stop case ends the loop, the timer case does not. *)
Lemma iteration_one_wait (sel : Select) (f : bool) (w : @World R) :
  exists evs,
    trace (snd (iteration env sel f w)) = trace w ++ evs
    /\ length (filter isAfter evs) = 1%nat
    /\ fst (fst (iteration env sel f w))
       = match sel with StopReceived => true | TimerFired => false end.
Proof.
  unfold iteration, bind, emit, leaveSelect, enterSelect, getManager,
    putManager, ret, time_Now.
  destruct (waitInterval_frame env f w) as (_ & _ & Htr & _).
  destruct (waitInterval env f w) as [d wa]. simpl in *.
  destruct sel; simpl.
  - match goal with
    | |- context [UpdateKeysIfNecessary env ?w1] =>
        destruct (generateKeys_no_wait true w1) as (evs & Hevs & Hnone);
        unfold UpdateKeysIfNecessary;
        destruct (generateKeys env true w1) as [err w2]
    end.
    simpl in Hevs.
    exists (EvAfter d :: evs).
    destruct err; simpl; rewrite Hevs, Htr, <- app_assoc, Hnone; auto.
  - exists [EvAfter d]. rewrite Htr. auto.
Qed.

(** X11: the loop goes on as long as timers fire, whether the updates fail
    or not, and ends at the first stop: it hands as many waits to timers as
    there are cases of the [select] up to and with the first stop, and what
    comes after that stop plays no part. *)
Theorem rotationLoop_runs_until_stop (sels : list Select) (f : bool)
    (w : @World R) :
  length (filter isAfter (since w (snd (rotationLoop env sels f w))))
    = executed sels
  /\ rotationLoop env sels f w = rotationLoop env (untilStop sels) f w.
Proof.
  assert (Hcount : forall sels f (w : @World R), exists evs,
            trace (snd (rotationLoop env sels f w)) = trace w ++ evs
            /\ length (filter isAfter evs) = executed sels).
  { clear. induction sels as [|sel sels IH]; intros f w.
    - exists []. simpl. rewrite app_nil_r. auto.
    - cbn [rotationLoop]. unfold bind.
      destruct (iteration_one_wait sel f w) as (evs & Hevs & Hone & Hstop).
      destruct (iteration env sel f w) as [[needStop f'] w1]. simpl in *.
      destruct sel; subst needStop; simpl.
      + destruct (IH f' w1) as (evs' & Hevs' & Hn).
        exists (evs ++ evs'). rewrite Hevs', Hevs, <- app_assoc.
        split; [reflexivity|].
        rewrite filter_app, length_app, Hone, Hn. reflexivity.
      + exists evs. auto. }
  split.
  - destruct (Hcount sels f w) as (evs & Hevs & Hn).
    unfold since. rewrite Hevs, since_app. exact Hn.
  - revert f w. induction sels as [|sel sels IH]; intros f w; [reflexivity|].
    destruct sel; cbn [untilStop rotationLoop]; unfold bind.
    + destruct (iteration env TimerFired f w) as [[needStop f'] w1].
      destruct needStop; [reflexivity|]. apply IH.
    + destruct (iteration_one_wait StopReceived f w) as (_ & _ & _ & Hstop).
      destruct (iteration env StopReceived f w) as [[needStop f'] w1].
      simpl in Hstop. subst needStop. reflexivity.
Qed.

End Loop.

Section LoopFirstKey.

Import wgkeys.

Context {R : Type} {receiver : IWgKeysChangeReceiver R} {keeps : KeepsKeys R}.
Variable env : Env.

(** X12: when the one goroutine of the rotation finds, at its timer, a
    receiver with an interval and no public key, and the key generator and
    the API answer, the stop signal of the [StartKeysRotation] that follows
    the save is not received, the goroutine being away from its [select], and
    a second goroutine is started: two of them wait afterwards. *)
Theorem iteration_starts_second_goroutine (f : bool) (w : @World R)
    (pub priv : string) (ip : IP) :
  _service (manager w) <> None ->
  _stopKeysRotation (manager w) = 1%nat ->
  0 < updateInterval (WireGuardGetKeys (service w)) ->
  wgPublicKey (WireGuardGetKeys (service w)) = EmptyString ->
  wireguard_GenerateKeys env (keygens w) (_wgToolBinPath (manager w))
    = (pub, priv, None) ->
  pub <> EmptyString ->
  api_WireGuardKeySet env (issues w) (session (WireGuardGetKeys (service w)))
    pub EmptyString = (ip, None) ->
  let w' := snd (iteration env TimerFired f w) in
  _stopKeysRotation (manager w') = 2%nat
  /\ filter isStop (since w w') = [EvStop false]
  /\ filter isGo (since w w') = [EvGo]
  /\ fst (iteration env TimerFired f w) = (false, false).
Proof.
  intros Hb Hn Hi Hp Hgen Hpub Hset. cbv zeta.
  assert (Hi' : (updateInterval (WireGuardGetKeys (service w)) <=? 0) = false)
    by (apply Z.leb_gt; assumption).
  assert (Hold : (if negb (Connected (service w)) then EmptyString
                  else EmptyString) = EmptyString)
    by (destruct (Connected (service w)); reflexivity).
  destruct (_service (manager w)) as [r|] eqn:Hs; [|congruence].
  unfold iteration, bind.
  destruct (waitInterval_frame env f w) as (Hm & Hsvc & Htr & Hkg & Hiss).
  destruct (waitInterval env f w) as [d wa]. simpl in Hm, Hsvc, Htr, Hkg, Hiss.
  unfold since.
  run. rewrite Hm, Hsvc, Htr, Hkg, Hiss, Hs, Hn. simpl.
  repeat (first [rewrite Hp | rewrite Hi' | rewrite Hgen | rewrite Hold
                | rewrite Hset | rewrite saved_wgPublicKey
                | rewrite saved_updateInterval ]; simpl).
  destruct pub as [|c pub]; [congruence|]. simpl.
  rewrite <- !app_assoc, since_app. simpl. auto.
Qed.

End LoopFirstKey.

(** ** Goroutines and the lock *)

Section Lock.

Import wgkeys.
Import rotation.

Context {R : Type} {receiver : IWgKeysChangeReceiver R}.

(** A goroutine whose lock state is its own (the lock is its own when it is
    between [Lock] and [Unlock], and free otherwise) can run its statement
    unless it has returned; the statement leaves it at a place with fewer
    statements left, its lock state its own again, and the other goroutines
    where they were. *)
Lemma statement_own (i : nat) (a : Answer) (s : @State R) (b : bool) (p : PC) :
  at_pc s i b p ->
  (if locked p then _mutex s = Some i else _mutex s = None) ->
  match statement i a s with
  | Some s' =>
      exists p',
        at_pc s' i b p'
        /\ (remaining p' < remaining p)%nat
        /\ (if locked p' then _mutex s' = Some i else _mutex s' = None)
        /\ (forall j, j <> i -> goroutines s' j = goroutines s j)
  | None => exists retErr, p = pcReturn retErr
  end.
Proof.
  unfold at_pc. intros Hi Hown. unfold statement. rewrite Hi.
  destruct p; simpl in Hown |- *;
    try rewrite Hown;
    repeat match goal with
    | |- context [match ?x with _ => _ end] =>
        lazymatch x with
        | context [match _ with _ => _ end] => fail
        | _ => destruct x eqn:?
        end
    end;
    cbv beta iota;
    try (eexists; reflexivity);
    unfold goto; cbn [goroutines _mutex];
    eexists; (split; [apply set_same|]);
    (split; [simpl; lia|]);
    (split; [simpl; auto|]);
    intros j Hj; apply set_other; exact Hj.
Qed.

(** X13: a goroutine that nobody keeps from the lock returns and leaves the
    lock free: from any place in [generateKeys], with the lock free or its
    own, it has returned after eleven of its statements at most, whatever
    the key generator and the API answer, and the other goroutines are where
    they were. *)
Theorem goroutine_alone_returns (bound : option Ref) (r : R) (t : time.Time)
    (ms : list Move) (s : @State R) (i : nat) (b : bool) (p : PC) (a : Answer) :
  moves ms (idle bound r t) = Some s ->
  at_pc s i b p ->
  _mutex s = None \/ _mutex s = Some i ->
  exists retErr,
    at_pc (alone 11 i a s) i b (pcReturn retErr)
    /\ _mutex (alone 11 i a s) = None
    /\ forall j, j <> i -> goroutines (alone 11 i a s) j = goroutines s j.
Proof.
  intros Hrun Hi Hmu.
  pose proof (Invariant_moves ms _ s (Invariant_idle bound r t) Hrun)
    as (Hin & _ & _).
  assert (Hown : if locked p then _mutex s = Some i else _mutex s = None).
  { destruct (locked p) eqn:Hl.
    - apply Hin. exists (mkGoroutine b p). auto.
    - destruct Hmu as [Hmu|Hmu]; [exact Hmu|].
      apply Hin in Hmu. destruct Hmu as (g & Hg & Hlg).
      unfold at_pc in Hi. rewrite Hi in Hg. inversion Hg; subst.
      simpl in Hlg. congruence. }
  clear Hrun Hin Hmu.
  assert (Hp : (remaining p <= 11)%nat) by (destruct p; simpl; lia).
  revert s p Hi Hown Hp. generalize 11%nat as n.
  induction n as [|n IH]; intros s p Hi Hown Hp.
  - destruct p; simpl in Hp; try lia.
    exists retErr. simpl in Hown |- *. auto.
  - pose proof (statement_own i a s b p Hi Hown) as Hst.
    cbn [alone]. destruct (statement i a s) as [s1|].
    + destruct Hst as (p1 & Hi1 & Hlt & Hown1 & Hothers).
      destruct (IH s1 p1 Hi1 Hown1) as (e & He & Hfree & Hoth); [lia|].
      exists e. split; [exact He|]. split; [exact Hfree|].
      intros j Hj. rewrite (Hoth j Hj). apply Hothers. exact Hj.
    + destruct Hst as (e & ->). exists e. simpl in Hown. auto.
Qed.

(** X14: the lock is never left behind and never blocks everybody: in every
    state that the daemon can reach, the goroutine that holds the lock is in
    flight between [Lock] and [Unlock]; when every call has returned the lock
    is free; and as long as some call has not returned, some goroutine can
    run its statement. *)
Theorem lock_is_given_back (bound : option Ref) (r : R) (t : time.Time)
    (ms : list Move) (s : @State R) :
  moves ms (idle bound r t) = Some s ->
  (forall i, _mutex s = Some i ->
     exists b p, at_pc s i b p /\ locked p = true)
  /\ ((forall i g, goroutines s i = Some g -> exists retErr, pc g = pcReturn retErr) ->
      _mutex s = None)
  /\ (forall i g a,
        goroutines s i = Some g -> (forall retErr, pc g <> pcReturn retErr) ->
        exists j s', statement j a s = Some s').
Proof.
  intros Hrun.
  pose proof (Invariant_moves ms _ s (Invariant_idle bound r t) Hrun)
    as (Hin & _ & _).
  assert (Hholder : forall i, _mutex s = Some i ->
            exists b p, at_pc s i b p /\ locked p = true).
  { intros i Hm. apply Hin in Hm. destruct Hm as ([b p] & Hg & Hl).
    exists b, p. split; assumption. }
  split; [exact Hholder|]. split.
  - intros Hall. destruct (_mutex s) as [i|] eqn:Hm; [|reflexivity].
    destruct (Hholder i eq_refl) as (b & p & Hat & Hl).
    destruct (Hall i _ Hat) as (e & He). simpl in He. subst p. discriminate.
  - intros i [b p] a Hg Hnot. simpl in Hnot.
    destruct (_mutex s) as [j|] eqn:Hm.
    + destruct (Hholder j eq_refl) as (bj & pj & Hat & Hl).
      exists j.
      pose proof (statement_own j a s bj pj Hat) as Hst.
      rewrite Hl in Hst. specialize (Hst Hm).
      destruct (statement j a s) as [s'|]; [eauto|].
      destruct Hst as (e & ->). discriminate.
    + exists i.
      assert (Hl : locked p = false).
      { destruct (locked p) eqn:Hl; [|reflexivity].
        assert (Hi : inside s i) by (exists (mkGoroutine b p); auto).
        apply Hin in Hi. congruence. }
      pose proof (statement_own i a s b p Hg) as Hst.
      rewrite Hl in Hst. specialize (Hst Hm).
      destruct (statement i a s) as [s'|]; [eauto|].
      destruct Hst as (e & ->). exfalso. apply (Hnot e). reflexivity.
Qed.

(** X15: only the goroutine that holds the lock changes the receiver, and
    only by the save of line 227: a move of a reachable state that changes
    the receiver is the statement [WireGuardSaveNewKeys] of the lock holder,
    with the clock of that moment; calls that arrive and time that passes
    leave the receiver as it is. *)
Theorem receiver_changes_under_lock (bound : option Ref) (r : R) (t : time.Time)
    (ms : list Move) (s s' : @State R) (m : Move) :
  moves ms (idle bound r t) = Some s ->
  move m s = Some s' ->
  service s' <> service s ->
  exists i a b k pub priv ip,
    m = Run i a
    /\ _mutex s = Some i
    /\ at_pc s i b (pcSaveNewKeys k pub priv ip)
    /\ k = WireGuardGetKeys (service s)
    /\ service s' = WireGuardSaveNewKeys (clock s) pub priv ip (service s).
Proof.
  intros Hrun Hmove Hch.
  pose proof (Invariant_moves ms _ s (Invariant_idle bound r t) Hrun)
    as (Hin & _ & Hkeys).
  destruct m as [b0|d|i a]; simpl in Hmove.
  - inversion Hmove; subst. simpl in Hch. congruence.
  - destruct (d <? 0); [discriminate|]. inversion Hmove; subst.
    simpl in Hch. congruence.
  - unfold statement in Hmove.
    destruct (goroutines s i) as [[b p]|] eqn:Hg; [|discriminate].
    destruct p; simpl in Hmove;
      repeat match type of Hmove with
      | match ?x with _ => _ end = _ => destruct x eqn:?
      end;
      try discriminate; inversion Hmove; subst; clear Hmove;
      simpl in Hch; try congruence.
    exists i, a, b, k, pub, priv, localIP.
    split; [reflexivity|]. split.
    + apply Hin. exists (mkGoroutine b (pcSaveNewKeys k pub priv localIP)). auto.
    + split; [exact Hg|]. split; [|reflexivity].
      apply (Hkeys i _ k Hg). reflexivity.
Qed.

End Lock.

(** ** The settings file *)

Section SettingsFileProperties.

Import preferences.

Variable SettingsFile : string.
Context {codec : Codec}.


(** X17: [LoadPreferences] writes the settings file only to store the
    default interval: either the files are as they were, or the load
    succeeded on settings in the current format, the interval it returns is
    the default of seven days, and what it wrote is [SavePreferences] of the
    settings it returns.  A load that returns an error writes nothing. *)
Theorem LoadPreferences_writes_only_the_default (p : Preferences) (d : Disk) :
  let r := LoadPreferences SettingsFile p d in
  (snd r = d
   \/ (fst (fst r) = None
       /\ currentFormat SettingsFile d
       /\ SessionStatus.WGKeysRegenInerval (Session (snd (fst r)))
          = DefaultWGKeysInterval
       /\ snd r = fst (SavePreferences SettingsFile (snd (fst r)) d)))
  /\ (fst (fst r) <> None -> snd r = d).
Proof.
  unfold LoadPreferences, ioutil_ReadFile, currentFormat.
  destruct (content d SettingsFile) as [data|] eqn:Hc; simpl;
    [|split; auto].
  destruct (strings.Contains data oldMarker) eqn:Hold.
  - destruct (json_UnmarshalOld data emptyOld) as [o [e|]]; simpl; split; auto.
  - destruct (json_Unmarshal data p) as [p1 [e|]]; simpl; [split; auto|].
    destruct (SessionStatus.WGKeysRegenInerval (Session (resetKeyGenerated p1)) <=? 0).
    + destruct (SavePreferences SettingsFile _ d) as [d1 e1] eqn:Hs; simpl.
      split; [|congruence].
      right. split; [reflexivity|]. split; [eauto|]. split; [reflexivity|].
      rewrite Hs. reflexivity.
    + simpl. split; auto.
Qed.

(** X18: settings of the releases up to v2.10.9 give the six flags and
    nothing else: a load that finds the old field name and decodes the file
    returns nil, sets each flag to whether the file has it as "1", keeps the
    session it had, with its interval, be it undefined, and leaves the file
    as it is. *)
Theorem LoadPreferences_old_format (p : Preferences) (d : Disk)
    (data : string) (o : PreferencesOld) :
  content d SettingsFile = Some data ->
  strings.Contains data oldMarker = true ->
  json_UnmarshalOld data emptyOld = (o, None) ->
  let r := LoadPreferences SettingsFile p d in
  fst (fst r) = None
  /\ Session (snd (fst r)) = Session p
  /\ snd r = d
  /\ IsLogging (snd (fst r)) = String.eqb "1" (old_IsLogging o)
  /\ IsFwPersistant (snd (fst r)) = String.eqb "1" (old_IsFwPersistant o)
  /\ IsFwAllowLAN (snd (fst r)) = String.eqb "1" (old_IsFwAllowLAN o)
  /\ IsFwAllowLANMulticast (snd (fst r))
     = String.eqb "1" (old_IsFwAllowLANMulticast o)
  /\ IsStopOnClientDisconnect (snd (fst r))
     = String.eqb "1" (old_IsStopOnClientDisconnect o)
  /\ IsObfsproxy (snd (fst r)) = String.eqb "1" (old_IsObfsproxy o).
Proof.
  intros Hc Hold Ho. unfold LoadPreferences, ioutil_ReadFile.
  rewrite Hc. cbv beta iota. rewrite Hold, Ho. simpl.
  repeat split; reflexivity.
Qed.

(** X19: what [SavePreferences] wrote, [LoadPreferences] reads back: when
    the encoder and the write succeed, the decoder returns the encoded
    settings, and their interval is positive, the load returns nil and the
    saved settings, with the key time zeroed if a key field is empty, and
    writes nothing; with the three key fields filled it returns the saved
    settings unchanged. *)
Theorem SavePreferences_then_LoadPreferences (p p0 : Preferences) (d : Disk)
    (data : string) :
  json_Marshal p = (data, None) ->
  refuses d SettingsFile = false ->
  strings.Contains data oldMarker = false ->
  json_Unmarshal data p0 = (p, None) ->
  0 < SessionStatus.WGKeysRegenInerval (Session p) ->
  let d' := fst (SavePreferences SettingsFile p d) in
  snd (SavePreferences SettingsFile p d) = None
  /\ LoadPreferences SettingsFile p0 d' = (None, resetKeyGenerated p, d')
  /\ (isEmpty (SessionStatus.WGPublicKey (Session p)) = false ->
      isEmpty (SessionStatus.WGPrivateKey (Session p)) = false ->
      isEmpty (SessionStatus.WGLocalIP (Session p)) = false ->
      LoadPreferences SettingsFile p0 d' = (None, p, d')).
Proof.
  intros Hm Hr Hold Hu Hi.
  assert (Hreset : SessionStatus.WGKeysRegenInerval (Session (resetKeyGenerated p))
                   = SessionStatus.WGKeysRegenInerval (Session p)).
  { unfold resetKeyGenerated. cbv zeta.
    destruct (_ || _ || _); reflexivity. }
  assert (Hload : LoadPreferences SettingsFile p0
                    (fst (SavePreferences SettingsFile p d))
                  = (None, resetKeyGenerated p,
                     fst (SavePreferences SettingsFile p d))).
  { unfold SavePreferences, ioutil_WriteFile. rewrite Hm, Hr. simpl.
    unfold LoadPreferences, ioutil_ReadFile. simpl.
    rewrite String.eqb_refl. cbv beta iota. rewrite Hold, Hu.
    cbv beta iota zeta. rewrite Hreset.
    destruct (Z.leb_spec (SessionStatus.WGKeysRegenInerval (Session p)) 0); [lia|].
    reflexivity. }
  cbv zeta. split.
  - unfold SavePreferences, ioutil_WriteFile. rewrite Hm, Hr. reflexivity.
  - split; [exact Hload|].
    intros H1 H2 H3. rewrite Hload. unfold resetKeyGenerated. cbv zeta.
    rewrite H1, H2, H3. reflexivity.
Qed.

(** X20: a new session takes nothing from the one before but the interval:
    [setSession] gives the same session for any two previous settings whose
    intervals are equal or both undefined, whatever account, token,
    credentials and keys the previous session held, and it keeps the six
    flags.  [updateWgCredentials] is any function. *)
Theorem setSession_forgets_previous_session
    (updateWgCredentials :
       time.Time -> string -> string -> string -> SessionStatus.t -> SessionStatus.t)
    (now : time.Time)
    (accountID session vpnUser vpnPass wgPublicKey wgPrivateKey wgLocalIP : string)
    (p p' : Preferences) :
  SessionStatus.WGKeysRegenInerval (Session p)
  = SessionStatus.WGKeysRegenInerval (Session p')
  \/ (SessionStatus.WGKeysRegenInerval (Session p) <= 0
      /\ SessionStatus.WGKeysRegenInerval (Session p') <= 0) ->
  let set := setSession updateWgCredentials now accountID session vpnUser vpnPass
                        wgPublicKey wgPrivateKey wgLocalIP in
  Session (set p) = Session (set p')
  /\ setSessionStatus (Session p) (set p) = p.
Proof.
  intros H. cbv zeta. unfold setSession. cbv zeta. simpl. split.
  - destruct H as [H|[H H']].
    + rewrite H. reflexivity.
    + destruct (Z.leb_spec (SessionStatus.WGKeysRegenInerval (Session p)) 0); [|lia].
      destruct (Z.leb_spec (SessionStatus.WGKeysRegenInerval (Session p')) 0); [|lia].
      reflexivity.
  - destruct p; reflexivity.
Qed.

End SettingsFileProperties.

(** ** The start of the daemon *)

Section PlatformProperties.

Import platform.

Context {FS : Type}.
Variable filepath_Dir : string -> string.
Variable os_MkdirAll : string -> FS -> FS * error.
Variable checkStaticConfig : string -> FS -> error.
Variable doOsInit :
  Vars -> FS -> option (list string) * option (list string) * Vars * FS.
Variable doInitOperations : Vars -> FS -> string * error * Vars * FS.

(** [makeDir] leaves the variables alone, and asks for the directory unless
    its path is empty. *)
Lemma makeDir_effect (description dirpath : string) (st : @State FS) :
  let r := makeDir os_MkdirAll description dirpath st in
  vars (snd r) = vars st
  /\ made (snd r) = made st ++ (if isEmpty dirpath then [] else [dirpath])
  /\ (isEmpty dirpath = true -> fst r <> None /\ snd r = st)
  /\ (isEmpty dirpath = false ->
      fs (snd r) = fst (os_MkdirAll dirpath (fs st))
      /\ (fst r = None <-> snd (os_MkdirAll dirpath (fs st)) = None)).
Proof.
  unfold makeDir. destruct (isEmpty dirpath); simpl.
  - rewrite app_nil_r. repeat split; try discriminate; congruence.
  - destruct (os_MkdirAll dirpath (fs st)) as [f [e|]]; simpl;
      repeat split; try discriminate; congruence.
Qed.

Lemma extends_refl (l : list string) :
  exists more, l = l ++ more /\ (length more <= 0)%nat.
Proof. exists []. rewrite app_nil_r. auto. Qed.

Lemma extends_appendError (n : nat) (l l1 : list string) (err : error) :
  (exists more, l1 = l ++ more /\ (length more <= n)%nat) ->
  exists more, appendError l1 err = l ++ more /\ (length more <= S n)%nat.
Proof.
  intros (more & -> & Hn). destruct err as [e|]; simpl.
  - exists (more ++ [e]). rewrite app_assoc, length_app. simpl. split; [reflexivity|lia].
  - exists more. auto.
Qed.

Lemma extends_if_appendError (n : nat) (c : bool) (l l1 : list string) (err : error) :
  (exists more, l1 = l ++ more /\ (length more <= n)%nat) ->
  exists more,
    (if c then appendError l1 err else l1) = l ++ more /\ (length more <= S n)%nat.
Proof.
  intros H. destruct c; [apply extends_appendError; exact H|].
  destruct H as (more & -> & Hn). exists more. auto.
Qed.

Lemma extends_appendWarning (n : nat) (l l1 : list string) (what : string)
    (err : error) :
  (exists more, l1 = l ++ more /\ (length more <= n)%nat) ->
  exists more, appendWarning l1 what err = l ++ more /\ (length more <= S n)%nat.
Proof.
  intros (more & -> & Hn). destruct err as [e|]; simpl.
  - eexists (more ++ [_]). rewrite app_assoc, length_app. simpl.
    split; [reflexivity|lia].
  - exists more. auto.
Qed.

Lemma extends_if_append (n : nat) (c : bool) (l l1 : list string) (x : string) :
  (exists more, l1 = l ++ more /\ (length more <= n)%nat) ->
  exists more, (if c then l1 ++ [x] else l1) = l ++ more /\ (length more <= S n)%nat.
Proof.
  intros (more & -> & Hn). destruct c.
  - exists (more ++ [x]). rewrite app_assoc, length_app. simpl. split; [reflexivity|lia].
  - exists more. auto.
Qed.

Ltac make_dir :=
  match goal with
  | |- context [makeDir ?mk ?d ?p ?s] =>
      let H := fresh "Hmk" in
      let e := fresh "err" in
      let v := fresh "v" in
      let f := fresh "f" in
      let m := fresh "m" in
      pose proof (makeDir_effect d p s) as H; cbv zeta in H;
      destruct (makeDir mk d p s) as [e [v f m]];
      cbn [fst snd vars made fs] in H;
      destruct H as (-> & -> & _);
      cbn [fst snd vars made fs]
  end.

(** X21: [Init] asks for each of its six directories, whatever went wrong
    before: the directories it has [os.MkdirAll] make are those of the
    service port file, the log file, the OpenVPN log file, the settings
    file, the OpenVPN configuration and the WireGuard configuration, as
    [doOsInit] set them, in this order, less the empty ones; no failure of
    an earlier step keeps it from a later one. *)
Theorem Init_makes_every_directory
    (checkExecutable : string -> FS -> error) (st : @State FS) :
  let v := snd (fst (doOsInit (setObfsproxyHostPort 5145 (vars st)) (fs st))) in
  made (snd (Init filepath_Dir os_MkdirAll checkStaticConfig checkExecutable
                  doOsInit doInitOperations st))
  = made st
    ++ filter (fun d => negb (isEmpty d))
         (map filepath_Dir
            [servicePortFile v; logFile v; openvpnLogFile v; settingsFile v;
             openvpnConfigFile v; wgConfigFilePath v]).
Proof.
  unfold Init. cbn [vars fs made].
  destruct (doOsInit _ _) as [[[w0 e0] v1] f1]. cbn [fst snd vars fs made].
  do 6 make_dir.
  destruct (doInitOperations _ _) as [[[w e] v'] f']. cbn [fst snd made].
  cbn [map filter].
  repeat rewrite <- app_assoc.
  repeat match goal with
  | |- context [isEmpty ?p] => destruct (isEmpty p)
  end; reflexivity.
Qed.


(** X23: [Init] drops nothing that was reported: what [doOsInit] returned
    comes first and in order, in the errors and in the warnings (nothing,
    if the slice was nil); [Init] adds eleven errors at most (six
    directories, two key files, two scripts, [doInitOperations]) and five
    warnings at most (four binaries, [doInitOperations]). *)
Theorem Init_keeps_what_doOsInit_reported
    (checkExecutable : string -> FS -> error) (st : @State FS) :
  let o := doOsInit (setObfsproxyHostPort 5145 (vars st)) (fs st) in
  let warnings0 := match fst (fst (fst o)) with Some l => l | None => [] end in
  let errors0 := match snd (fst (fst o)) with Some l => l | None => [] end in
  let r := Init filepath_Dir os_MkdirAll checkStaticConfig checkExecutable
                doOsInit doInitOperations st in
  (exists more, snd (fst r) = errors0 ++ more /\ (length more <= 11)%nat)
  /\ (exists more, fst (fst r) = warnings0 ++ more /\ (length more <= 5)%nat).
Proof.
  cbv zeta. unfold Init. cbn [vars fs made].
  destruct (doOsInit _ _) as [[[w0 e0] v1] f1]. cbn [fst snd vars fs made].
  do 6 make_dir.
  destruct (doInitOperations _ _) as [[[w e] v'] f']. cbn [fst snd].
  split.
  - apply extends_appendError.
    do 2 apply extends_if_appendError.
    do 8 apply extends_appendError.
    apply extends_refl.
  - apply extends_if_append.
    do 4 apply extends_appendWarning.
    apply extends_refl.
Qed.

End PlatformProperties.

(** ** More scenarios *)

Section MoreScenarios.

Import wgkeys.
Import example.

(** A daemon without WireGuard starts with two warnings and no error, and
    has made its four directories, one of them for three of its files. *)
Example Init_without_WireGuard :
  fst (fst (installation.Init installation.noWireGuard))
  = ["WireGuard functionality not accessible: (wgBinaryPath) stat /usr/bin/wg-quick: no such file or directory";
     "WireGuard functionality not accessible: (wgToolBinaryPath) stat /usr/bin/wg: no such file or directory"]%string
  /\ snd (fst (installation.Init installation.noWireGuard)) = []
  /\ platform.made (snd (installation.Init installation.noWireGuard))
     = ["/opt/ivpn/mutable"; "/opt/ivpn/log"; "/opt/ivpn/log"; "/opt/ivpn/etc";
        "/opt/ivpn/mutable"; "/opt/ivpn/mutable"]%string
  /\ platform.obfsproxyHostPort
       (platform.vars (snd (installation.Init installation.noWireGuard))) = 5145.
Proof. vm_compute. repeat split; reflexivity. Qed.

Lemma unbound_manager_refuses_witness :
  let w := mkWorld (CreateKeysManager "/usr/bin/wg") (service0 true) 0 0 0 [] in
  let e := env (t2020 + 8 * day) false false in
  fst (StartKeysRotation w) <> None /\ snd (StartKeysRotation w) = w
  /\ fst (generateKeys e true w) <> None /\ snd (generateKeys e true w) = w.
Proof.
  intros w e. exact (unbound_manager_refuses e true w eq_refl).
Defined.

Lemma StartKeysRotation_undefined_interval_stops_witness :
  let w := world (service.mkService prefsStale (diskWith "stale") false) in
  fst (StartKeysRotation w) <> None
  /\ since w (snd (StartKeysRotation w)) = [EvStop false]
  /\ _stopKeysRotation (manager (snd (StartKeysRotation w))) = 0%nat
  /\ service (snd (StartKeysRotation w)) = service w.
Proof.
  intros w.
  refine (StartKeysRotation_undefined_interval_stops w _ _).
  - discriminate.
  - vm_compute. discriminate.
Defined.


Lemma UpdateKeysIfNecessary_undefined_interval_witness :
  let w := world (service.mkService prefsStale (diskWith "stale") false) in
  let e := env (t2020 + 8 * day) false false in
  fst (UpdateKeysIfNecessary e w) <> None
  /\ snd (UpdateKeysIfNecessary e w) = w.
Proof.
  intros w e.
  refine (UpdateKeysIfNecessary_undefined_interval e w _ _).
  - discriminate.
  - vm_compute. discriminate.
Defined.

Lemma UpdateKeysIfNecessary_without_key_witness :
  let w := world serviceNoKey in
  let e := env (t2020 + time.Hour) false false in
  UpdateKeysIfNecessary e w = GenerateKeys e w.
Proof.
  intros w e.
  refine (UpdateKeysIfNecessary_without_key e w _ _).
  - reflexivity.
  - reflexivity.
Defined.

Lemma UpdateKeysIfNecessary_after_rotation_witness :
  let w := world serviceNoKey in
  let e := env (t2020 + time.Hour) false false in
  let w' := snd (generateKeys e true w) in
  generatedTime (WireGuardGetKeys (service w')) = now e (Nat.pred (reads w'))
  /\ UpdateKeysIfNecessary e w'
     = (None, mkWorld (manager w') (service w') (S (reads w')) (keygens w')
                      (issues w') (trace w')).
Proof.
  intros w e.
  refine (@UpdateKeysIfNecessary_after_rotation _ _ service_KeepsKeys
            e true w _ _ _ _ _ _).
  - discriminate.
  - reflexivity.
  - vm_compute. reflexivity.
  - vm_compute. discriminate.
  - vm_compute. discriminate.
  - vm_compute. reflexivity.
Defined.

Lemma GenerateKeys_succeeds_iff_witness :
  let w := world (service0 true) in
  let e := env (t2020 + time.Hour) false false in
  fst (GenerateKeys e w) = None.
Proof.
  intros w e.
  refine (proj2 (GenerateKeys_succeeds_iff e w _) _).
  - discriminate.
  - split; reflexivity.
Defined.

Lemma iteration_starts_second_goroutine_witness :
  let w := mkWorld (mkKeysManager (Some theService) "/usr/bin/wg" 1)
                   serviceNoKey 0 0 0 [] in
  let e := env (t2020 + time.Hour) false false in
  let w' := snd (iteration e TimerFired false w) in
  _stopKeysRotation (manager w') = 2%nat
  /\ filter isStop (since w w') = [EvStop false]
  /\ filter isGo (since w w') = [EvGo]
  /\ fst (iteration e TimerFired false w) = (false, false).
Proof.
  intros w e.
  refine (@iteration_starts_second_goroutine _ _ service_KeepsKeys
            e false w "pubNew" "privNew" "172.16.0.9"%string _ _ _ _ _ _ _).
  - discriminate.
  - reflexivity.
  - reflexivity.
  - reflexivity.
  - reflexivity.
  - discriminate.
  - reflexivity.
Defined.

Lemma goroutine_alone_returns_witness :
  let s := after bothDue in
  exists retErr,
    rotation.at_pc (rotation.alone 11 1 answer s) 1 true (rotation.pcReturn retErr)
    /\ rotation._mutex (rotation.alone 11 1 answer s) = None
    /\ forall j, j <> 1%nat ->
         rotation.goroutines (rotation.alone 11 1 answer s) j
         = rotation.goroutines s j.
Proof.
  intros s.
  refine (goroutine_alone_returns
            (Some theService) (service0 true) (t2020 + 8 * day)
            bothDue s 1 true rotation.pcLock answer _ _ _).
  - vm_compute. reflexivity.
  - vm_compute. reflexivity.
  - left. vm_compute. reflexivity.
Defined.

Lemma lock_is_given_back_witness :
  let s := after (bothDue ++ [rotation.Run 0 answer]) in
  (forall i, rotation._mutex s = Some i ->
     exists b p, rotation.at_pc s i b p /\ rotation.locked p = true)
  /\ ((forall i g, rotation.goroutines s i = Some g ->
         exists retErr, rotation.pc g = rotation.pcReturn retErr) ->
      rotation._mutex s = None)
  /\ (forall i g a,
        rotation.goroutines s i = Some g ->
        (forall retErr, rotation.pc g <> rotation.pcReturn retErr) ->
        exists j s', rotation.statement j a s = Some s').
Proof.
  intros s.
  refine (lock_is_given_back
            (Some theService) (service0 true) (t2020 + 8 * day)
            (bothDue ++ [rotation.Run 0 answer]) s _).
  vm_compute. reflexivity.
Defined.

Lemma receiver_changes_under_lock_witness :
  let ms := bothDue ++ List.repeat (rotation.Run 0 answer) 6 in
  let s := after ms in
  let s' := after (ms ++ [rotation.Run 0 answer]) in
  exists i a b k pub priv ip,
    rotation.Run 0 answer = rotation.Run i a
    /\ rotation._mutex s = Some i
    /\ rotation.at_pc s i b (rotation.pcSaveNewKeys k pub priv ip)
    /\ k = WireGuardGetKeys (rotation.service s)
    /\ rotation.service s'
       = WireGuardSaveNewKeys (rotation.clock s) pub priv ip (rotation.service s).
Proof.
  intros ms s s'.
  refine (receiver_changes_under_lock
            (Some theService) (service0 true) (t2020 + 8 * day)
            ms s s' (rotation.Run 0 answer) _ _ _).
  - vm_compute. reflexivity.
  - vm_compute. reflexivity.
  - intros H.
    apply (f_equal (fun r => wgPublicKey (WireGuardGetKeys r))) in H.
    vm_compute in H. discriminate.
Defined.

Lemma LoadPreferences_old_format_witness :
  let d := diskWith preferences.oldMarker in
  let r := preferences.LoadPreferences settingsFile prefsStale d in
  fst (fst r) = None
  /\ preferences.Session (snd (fst r)) = sessionStale
  /\ snd r = d
  /\ preferences.IsLogging (snd (fst r)) = true
  /\ preferences.IsFwPersistant (snd (fst r)) = false
  /\ preferences.IsFwAllowLAN (snd (fst r)) = true
  /\ preferences.IsFwAllowLANMulticast (snd (fst r)) = false
  /\ preferences.IsStopOnClientDisconnect (snd (fst r)) = true
  /\ preferences.IsObfsproxy (snd (fst r)) = false.
Proof.
  intros d.
  refine (LoadPreferences_old_format settingsFile prefsStale d
            preferences.oldMarker
            (preferences.mkPreferencesOld "1" "0" "1" "0" "1" "0") _ _ _).
  - vm_compute. reflexivity.
  - vm_compute. reflexivity.
  - reflexivity.
Defined.

Lemma SavePreferences_then_LoadPreferences_witness :
  let d := fst (@preferences.SavePreferences settingsFile codecStored prefs0
                  (diskWith "stale")) in
  @preferences.LoadPreferences settingsFile codecStored prefsNoKey d
  = (None, prefs0, d).
Proof.
  intros d.
  refine (proj2 (proj2
            (@SavePreferences_then_LoadPreferences settingsFile codecStored
               prefs0 prefsNoKey (diskWith "stale") "fresh" _ _ _ _ _)) _ _ _).
  - reflexivity.
  - reflexivity.
  - vm_compute. reflexivity.
  - reflexivity.
  - reflexivity.
  - reflexivity.
  - reflexivity.
  - reflexivity.
Defined.

Lemma setSession_forgets_previous_session_witness :
  let set := preferences.setSession preferences.SessionStatus.updateWgCredentials
               t2020 " i-WXYZ-9876 " "token2" "user2" "pass2"
               EmptyString EmptyString EmptyString in
  preferences.Session (set prefs0) = preferences.Session (set prefsNoKey)
  /\ preferences.setSessionStatus (preferences.Session prefs0) (set prefs0)
     = prefs0.
Proof.
  refine (setSession_forgets_previous_session
            preferences.SessionStatus.updateWgCredentials
            t2020 " i-WXYZ-9876 " "token2" "user2" "pass2"
            EmptyString EmptyString EmptyString prefs0 prefsNoKey _).
  left. reflexivity.
Defined.


End MoreScenarios.

(** ** The rotation loop between two rotations *)

Section Polling.

Import wgkeys.

Context {R : Type} {receiver : IWgKeysChangeReceiver R}.
Variable env : Env.

(** An iteration whose readings of the clock are all in the second half of
    the interval and before its end: it waits one second, finds the update
    not necessary, and leaves all but the clock as it was. *)
Lemma iteration_second_half (w : @World R) :
  let k := WireGuardGetKeys (service w) in
  _service (manager w) = Some theService ->
  0 < updateInterval k <= time.maxDuration ->
  wgPublicKey k <> EmptyString ->
  (forall j, 2 * generatedTime k + updateInterval k < 2 * now env j
             /\ now env j < generatedTime k + updateInterval k) ->
  iteration env TimerFired false w
  = ((false, false),
     mkWorld (mkKeysManager (_service (manager w)) (_wgToolBinPath (manager w))
                (S (Nat.pred (_stopKeysRotation (manager w)))))
       (service w) (4 + reads w) (keygens w) (issues w)
       (trace w ++ [EvAfter time.Second])).
Proof.
  cbv zeta. intros Hb [Hi Hmax] Hp Hclock.
  unfold iteration, bind. rewrite waitInterval_not_failed. cbv zeta.
  destruct (Hclock (reads w)) as [Hhalf1 Hend1].
  destruct (Hclock (S (reads w))) as [Hhalf2 Hend2].
  destruct (Hclock (S (S (reads w)))) as [_ Hend3].
  rewrite Sub_exact
    by (unfold time.minDuration, time.maxDuration in *; lia).
  match goal with
  | |- context [if ?c then _ else _] => destruct c eqn:Hc
  end; [|apply Z.ltb_ge in Hc; lia].
  unfold emit, leaveSelect, enterSelect, getManager, putManager, ret. simpl.
  rewrite UpdateKeysIfNecessary_not_due by (simpl; assumption).
  unfold time_Now. simpl. reflexivity.
Qed.

(** X24: between the middle and the end of the interval the rotation loop
    wakes every second and does nothing: when every reading of the clock is
    past [generatedTime] plus half of the interval and before [generatedTime]
    plus the interval, [n] iterations whose timer fires wait one second each,
    call nothing but the clock, four times each, and leave the receiver, the
    flag [isLastUpdateFailed] and the binding as they were. *)
Theorem rotationLoop_polls_every_second (n : nat) (w : @World R) :
  let k := WireGuardGetKeys (service w) in
  _service (manager w) = Some theService ->
  0 < updateInterval k <= time.maxDuration ->
  wgPublicKey k <> EmptyString ->
  (forall j, 2 * generatedTime k + updateInterval k < 2 * now env j
             /\ now env j < generatedTime k + updateInterval k) ->
  let w' := snd (rotationLoop env (repeat TimerFired n) false w) in
  fst (rotationLoop env (repeat TimerFired n) false w) = false
  /\ since w w' = repeat (EvAfter time.Second) n
  /\ service w' = service w
  /\ reads w' = (4 * n + reads w)%nat
  /\ keygens w' = keygens w /\ issues w' = issues w
  /\ _service (manager w') = _service (manager w).
Proof.
  cbv zeta. intros Hb Hi Hp Hclock. unfold since.
  assert (Hgen : forall (w0 : @World R) pre,
            _service (manager w0) = Some theService ->
            service w0 = service w ->
            trace w0 = trace w ++ pre ->
            let r := rotationLoop env (repeat TimerFired n) false w0 in
            fst r = false
            /\ trace (snd r) = trace w ++ pre ++ repeat (EvAfter time.Second) n
            /\ service (snd r) = service w
            /\ reads (snd r) = (4 * n + reads w0)%nat
            /\ keygens (snd r) = keygens w0 /\ issues (snd r) = issues w0
            /\ _service (manager (snd r)) = _service (manager w0)).
  { induction n as [|m IH]; intros w0 pre Hb0 Hs0 Ht0; cbv zeta.
    - simpl. rewrite app_nil_r. repeat split; auto.
    - cbn [repeat rotationLoop]. unfold bind.
      rewrite iteration_second_half by (rewrite ?Hs0; assumption).
      cbv beta iota.
      match goal with
      | |- context [rotationLoop env (repeat TimerFired m) false ?w1] =>
          destruct (IH w1 (pre ++ [EvAfter time.Second]))
            as (Hf & Htr & Hsv & Hrd & Hkg & Hiss & Hbd)
      end.
      + exact Hb0.
      + exact Hs0.
      + simpl. rewrite Ht0, <- app_assoc. reflexivity.
      + rewrite Hf, Htr, Hsv, Hrd, Hkg, Hiss, Hbd. simpl.
        rewrite <- !app_assoc. simpl.
        repeat split; try reflexivity. lia. }
  destruct (Hgen w [] Hb eq_refl (eq_sym (app_nil_r _)))
    as (Hf & Htr & Hsv & Hrd & Hkg & Hiss & Hbd).
  rewrite Hf, Htr, Hsv, Hrd, Hkg, Hiss, Hbd. simpl. rewrite since_app.
  repeat split; reflexivity.
Qed.

End Polling.

Section ScenariosOfTheLoop.

Import wgkeys.
Import example.

Lemma rotationLoop_polls_every_second_witness :
  let w := world (service0 true) in
  let e := env (t2020 + 4 * day) false false in
  let w' := snd (rotationLoop e (repeat TimerFired 3) false w) in
  fst (rotationLoop e (repeat TimerFired 3) false w) = false
  /\ since w w' = repeat (EvAfter time.Second) 3
  /\ service w' = service w
  /\ reads w' = (4 * 3 + reads w)%nat
  /\ keygens w' = keygens w /\ issues w' = issues w
  /\ _service (manager w') = _service (manager w).
Proof.
  intros w e.
  refine (rotationLoop_polls_every_second e 3 w _ _ _ _).
  - reflexivity.
  - vm_compute. split; [reflexivity|discriminate].
  - vm_compute. discriminate.
  - intros j. vm_compute. split; reflexivity.
Defined.

Lemma single_generateKeys_witness :
  let w := world (service0 true) in
  let e := env (t2020 + 8 * day) false false in
  let s := rotation.single true answer (_service (manager w)) (service w)
             (t2020 + 8 * day) in
  rotation.goroutines s 0%nat
    = Some (rotation.mkGoroutine true
              (rotation.pcReturn (fst (generateKeys e true w))))
  /\ rotation.service s = service (snd (generateKeys e true w))
  /\ rotation._mutex s = None.
Proof.
  intros w e.
  refine (single_generateKeys e true answer w (t2020 + 8 * day) _ _ _).
  - intros n. reflexivity.
  - reflexivity.
  - intros ses pub old. reflexivity.
Defined.

End ScenariosOfTheLoop.
